(** * genaipy: the Map-Reduce summarisation notebook

    A shallow embedding of the code cells of
    [demos/content_creation_workflow.ipynb] (the notebook "Summarizing PDFs
    with Map-Reduce Technique"): the Map-Step loop, the join/cleanup cell and
    the Reduce-Step cell, run against a Jupyter kernel whose global variables
    are threaded explicitly.

    The helpers the cells import from the [genaipy] package
    ([build_prompt], [get_chat_response], the two prompt templates) are
    taken as parameters: the cells are modelled over them as section
    variables.  The template binder is modelled from its specification in
    the module [Template].  The cells of the notebook "Creating Content from
    Webpage", in its two versions, are embedded in the same way over a
    kernel of their own. *)

From Stdlib Require Import ZArith QArith Lia Ascii String.
From stdpp Require Import base option list strings pretty gmap.

Local Open Scope string_scope.
Local Open Scope list_scope.

(** ** Python values, strings and exceptions *)

(** The newline character, Python's ["\n"]. *)
Definition nl : string := String "010"%char EmptyString.

(** An exception object: its class name and its message.  Every exception
    of this development is a subclass of [Exception], which is what the
    [except Exception as e] clauses of the notebook catch. *)
Inductive exn : Type :=
| Exn (cls : string) (msg : string).

(** Reading an unbound global variable. *)
Definition NameError (name : string) : exn :=
  Exn "NameError" ("name '" +:+ name +:+ "' is not defined").

(** Subscripting a dict with a key it does not hold. *)
Definition KeyError (key : Z) : exn :=
  Exn "KeyError" (pretty key).

(** The outcome of evaluating a Python expression. *)
Inductive result (A : Type) : Type :=
| Return (a : A)
| Raise (e : exn).
Arguments Return {A} a.
Arguments Raise {A} e.

(** The values the notebook passes around as keyword arguments, log
    arguments and dict entries. *)
Inductive pyvalue : Type :=
| VInt (z : Z)
| VStr (s : string)
| VList (l : list string)
| VExn (e : exn).

(** [sep.join(l)] *)
Fixpoint join (sep : string) (l : list string) : string :=
  match l with
  | [] => ""
  | x :: rest =>
      match rest with
      | [] => x
      | _ :: _ => x +:+ sep +:+ join sep rest
      end
  end.

(** [startswith]: does [s] begin with [p]? *)
Fixpoint startswith (p s : string) : bool :=
  match p, s with
  | EmptyString, _ => true
  | String a p', String b s' => if Ascii.eqb a b then startswith p' s' else false
  | String _ _, EmptyString => false
  end.

(** [s.replace(old, new)] for a non-empty [old]: one scan from the left;
    where [old] starts, [new] is emitted and the scan resumes behind the
    occurrence ([skip] counts the characters of the occurrence still to be
    passed over), so the occurrences replaced do not overlap. *)
Fixpoint replace_from (old new : string) (skip : nat) (s : string) : string :=
  match s with
  | EmptyString => EmptyString
  | String c s' =>
      match skip with
      | S k => replace_from old new k s'
      | O =>
          if startswith old s
          then new +:+ replace_from old new (Nat.pred (String.length old)) s'
          else String c (replace_from old new O s')
      end
  end.

Definition replace (old new s : string) : string := replace_from old new O s.

(** A dict with integer keys, in insertion order: [d[key]]. *)
Fixpoint dict_get {V : Type} (key : Z) (d : list (Z * V)) : option V :=
  match d with
  | [] => None
  | (k, v) :: rest => if decide (k = key) then Some v else dict_get key rest
  end.

(** ** The kernel *)

(** The arguments of one [get_chat_response] call, as the notebook passes
    them (the temperature is always left at its default). *)
Record request : Type := Request {
  prompt : string;
  sys_message : option string;
  model : string;
  max_tokens : option Z
}.

Inductive log_level : Type := INFO | ERROR.

(** One [logging.info] / [logging.error] call: the format string and its
    arguments. *)
Record log_record : Type := LogRecord {
  level : log_level;
  fmt : string;
  args : list pyvalue
}.

(** The global variables of the kernel that one statement writes and a later
    one reads ([None]: not bound), the log, the provider calls made so far
    and what was printed.  [page], [map_prompt], [string], [reduce_prompt]
    and [e] are read only right after they are bound and are let-bound
    below. *)
Record kernel : Type := Kernel {
  map_summaries : option (list string);
  summary : option string;
  text : option string;
  final_summary : option string;
  output : option (list (string * pyvalue));
  log : list log_record;
  calls : list request;
  stdout : list string
}.

(** A kernel right after start-up and the setup cells. *)
Definition fresh : kernel :=
  Kernel None None None None None [] [] [].

(** A statement: it transforms the kernel and either completes with a value
    or raises. *)
Definition py (A : Type) : Type := kernel -> kernel * result A.

Definition py_ret {A} (a : A) : py A := fun k => (k, Return a).

Definition py_bind {A B} (f : A -> py B) (m : py A) : py B :=
  fun k =>
    match m k with
    | (k', Return a) => f a k'
    | (k', Raise e) => (k', Raise e)
    end.

#[global] Instance py_mret : MRet py := @py_ret.
#[global] Instance py_mbind : MBind py := @py_bind.

(** Lifting the outcome of a pure call. *)
Definition lift {A} (r : result A) : py A := fun k => (k, r).

(** [try: body / except Exception as e: handler e], for the exceptions
    that are instances of [Exception]: what the collaborators raise on a
    failure.  The module [ByClass] below has the statement for the other
    exceptions as well. *)
Definition try_except {A} (body : py A) (handler : exn -> py A) : py A :=
  fun k =>
    match body k with
    | (k', Return a) => (k', Return a)
    | (k', Raise e) => handler e k'
    end.

(** [try: body / except Exception as e: handler e / else: orelse]:
    the [else] suite runs when the body did not raise, outside the
    protection of the [except] clause. *)
Definition try_except_else {A B} (body : py A) (handler : exn -> py B)
    (orelse : A -> py B) : py B :=
  fun k =>
    match body k with
    | (k', Return a) => orelse a k'
    | (k', Raise e) => handler e k'
    end.

(** [for x in items: body x] *)
Fixpoint for_each {A} (items : list A) (body : A -> py unit) : py unit :=
  match items with
  | [] => mret tt
  | x :: rest => body x ;; for_each rest body
  end.

(** Reading a global variable. *)
Definition load {A} (name : string) (var : kernel -> option A) : py A :=
  fun k =>
    match var k with
    | Some v => (k, Return v)
    | None => (k, Raise (NameError name))
    end.

(** [d[key]] *)
Definition subscript {V} (d : list (Z * V)) (key : Z) : py V :=
  fun k =>
    match dict_get key d with
    | Some v => (k, Return v)
    | None => (k, Raise (KeyError key))
    end.

(** Assignments to the global variables. *)
Definition store_map_summaries (v : list string) : py unit := fun k =>
  (Kernel (Some v) (summary k) (text k) (final_summary k) (output k)
     (log k) (calls k) (stdout k), Return tt).

Definition store_summary (v : string) : py unit := fun k =>
  (Kernel (map_summaries k) (Some v) (text k) (final_summary k) (output k)
     (log k) (calls k) (stdout k), Return tt).

Definition store_text (v : string) : py unit := fun k =>
  (Kernel (map_summaries k) (summary k) (Some v) (final_summary k) (output k)
     (log k) (calls k) (stdout k), Return tt).

Definition store_final_summary (v : string) : py unit := fun k =>
  (Kernel (map_summaries k) (summary k) (text k) (Some v) (output k)
     (log k) (calls k) (stdout k), Return tt).

Definition store_output (v : list (string * pyvalue)) : py unit := fun k =>
  (Kernel (map_summaries k) (summary k) (text k) (final_summary k) (Some v)
     (log k) (calls k) (stdout k), Return tt).

(** [logging.info(fmt, *args)] and [logging.error(fmt, *args)] *)
Definition logging (lvl : log_level) (f : string) (a : list pyvalue) : py unit :=
  fun k =>
    (Kernel (map_summaries k) (summary k) (text k) (final_summary k) (output k)
       (log k ++ [LogRecord lvl f a]) (calls k) (stdout k), Return tt).

(** [print(s)] *)
Definition print (s : string) : py unit := fun k =>
  (Kernel (map_summaries k) (summary k) (text k) (final_summary k) (output k)
     (log k) (calls k) (stdout k ++ [s]), Return tt).

(** [map_summaries.append(x)] *)
Definition append_map_summaries (x : string) : py unit :=
  l ← load "map_summaries" map_summaries;
  store_map_summaries (l ++ [x]).

(** ** The notebook *)

(** The settings cell. *)
Definition MAP_LLM : string := "gpt-3.5-turbo".
Definition REDUCE_LLM : string := "gpt-4-1106-preview".
Definition SYS_MESSAGE : string :=
  "You are a generative AI expert. You explain complex AI concepts in simple language so regular users can understand your answers.".
Definition MAP_MAX_WORDS : Z := 150%Z.
Definition REDUCE_MAX_WORDS : Z := 300%Z.

Section Notebook.

(** What the notebook imports from [genaipy]: the two prompt templates,
    the prompt builder (template and keyword arguments in, prompt out, or
    an exception) and the Chat API call.  The provider need not answer the
    same request twice in the same way: its answer may depend on how many
    calls were made before ([nat]). *)
Variable SUMMARY_PROMPT_TPL : string.
Variable REDUCE_SUMMARY_PROMPT_TPL : string.
Variable build_prompt : string -> list (string * pyvalue) -> result string.
Variable get_chat_response : nat -> request -> result string.

(** One call of the provider; the call is recorded whether it succeeds or
    raises. *)
Definition chat (req : request) : py string := fun k =>
  (Kernel (map_summaries k) (summary k) (text k) (final_summary k) (output k)
     (log k) (calls k ++ [req]) (stdout k),
   get_chat_response (length (calls k)) req).

(** The body of the Map-Step loop for one [page] of the dict [pages]
    (page number to page content). *)
Definition map_iteration (pages : list (Z * string)) (page : Z) : py unit :=
  try_except
    (content ← subscript pages page;
     map_prompt ← lift (build_prompt SUMMARY_PROMPT_TPL
                          [("text", VStr content); ("max_words", VInt MAP_MAX_WORDS)]);
     s ← chat (Request map_prompt (Some SYS_MESSAGE) MAP_LLM None);
     store_summary s;;
     append_map_summaries s;;
     logging INFO "Map Summary #%d: %s" [VInt page; VStr s])
    (λ e,
     s ← load "summary" summary;
     logging ERROR "An error occured while generating summary #%d: %s"
       [VInt page; VStr s]).

(** The Map-Step cell. *)
Definition cell_map (pages : list (Z * string)) : py unit :=
  store_map_summaries [];;
  for_each pages.*1 (map_iteration pages).

(** The cell that joins the map summaries. *)
Definition cell_join : py unit :=
  l ← load "map_summaries" map_summaries;
  let string := join nl l in
  store_text (replace (nl +:+ nl) "" string);;
  t ← load "text" text;
  print t.

(** The Reduce-Step cell. *)
Definition cell_reduce : py unit :=
  try_except_else
    (t ← load "text" text;
     reduce_prompt ← lift (build_prompt REDUCE_SUMMARY_PROMPT_TPL
                             [("text", VStr t); ("max_words", VInt REDUCE_MAX_WORDS)]);
     f ← chat (Request reduce_prompt (Some SYS_MESSAGE) REDUCE_LLM (Some 1024%Z));
     store_final_summary f;;
     logging INFO ("Final Reduce Summary:" +:+ nl +:+ "%s") [VStr f])
    (λ e,
     logging ERROR "An error occured while generating final summary: %s" [VExn e])
    (λ _,
     f ← load "final_summary" final_summary;
     l ← load "map_summaries" map_summaries;
     store_output [("final_summary", VStr f); ("map_summaries", VList l)]).

(** The reduce stage: the join cell, then the Reduce-Step cell. *)
Definition run_reduce : py unit := cell_join;; cell_reduce.

(** The whole notebook, cell after cell; a cell that raises stops the
    run. *)
Definition run_all (pages : list (Z * string)) : py unit :=
  cell_map pages;; run_reduce.

End Notebook.

(** ** Reading the kernel's records *)

(** The strings among a list of call outcomes, in order. *)
Definition successes (rs : list (result string)) : list string :=
  omap (λ r, match r with Return s => Some s | Raise _ => None end) rs.

(** The two records the Map-Step loop writes. *)
Definition map_info (page : Z) (s : string) : log_record :=
  LogRecord INFO "Map Summary #%d: %s" [VInt page; VStr s].

Definition map_error (page : Z) (detail : string) : log_record :=
  LogRecord ERROR "An error occured while generating summary #%d: %s"
    [VInt page; VStr detail].

(** The two records the Reduce-Step cell writes: when its [try] suite
    completes, and when it raises. *)
Definition reduce_info (f : string) : log_record :=
  LogRecord INFO ("Final Reduce Summary:" +:+ nl +:+ "%s") [VStr f].

Definition reduce_error (e : exn) : log_record :=
  LogRecord ERROR "An error occured while generating final summary: %s" [VExn e].

(** The page number a Map-Step record is keyed by, and the text it carries. *)
Definition record_page (r : log_record) : option Z :=
  match args r with
  | VInt p :: _ => Some p
  | _ => None
  end.

Definition record_text (r : log_record) : option string :=
  match args r with
  | [_; VStr s] => Some s
  | _ => None
  end.

Definition is_error (r : log_record) : bool :=
  match level r with ERROR => true | INFO => false end.

(** The summaries carried by the INFO records of a log, in order. *)
Definition info_summaries (l : list log_record) : list string :=
  omap (λ r, if is_error r then None else record_text r) l.

(** The exceptions among a list of call outcomes, in order. *)
Definition failures (rs : list (result string)) : list exn :=
  omap (λ r, match r with Return _ => None | Raise e => Some e end) rs.

(** The record the Map-Step writes for a page agrees with what the [try]
    suite of that page evaluated to: the INFO record with the summary when
    it returned one, an ERROR record keyed by the page when it raised. *)
Definition record_agrees (r : log_record) (page : Z) (res : result string) : Prop :=
  match res with
  | Return s => r = map_info page s
  | Raise _ => is_error r = true ∧ record_page r = Some page
  end.

(** Does [p] occur in [s]? *)
Fixpoint contains (p s : string) : bool :=
  match s with
  | EmptyString => startswith p s
  | String _ s' => startswith p s || contains p s'
  end.

(** The text the join cell computes from the map summaries. *)
Definition reduce_input (l : list string) : string :=
  replace (nl +:+ nl) "" (join nl l).

(** [s] without the occurrences of the character [c]. *)
Fixpoint without (c : ascii) (s : string) : string :=
  match s with
  | EmptyString => EmptyString
  | String a s' => if Ascii.eqb a c then without c s' else String a (without c s')
  end.

Section Outcomes.

Variable SUMMARY_PROMPT_TPL : string.
Variable REDUCE_SUMMARY_PROMPT_TPL : string.
Variable build_prompt : string -> list (string * pyvalue) -> result string.
Variable get_chat_response : nat -> request -> result string.

(** The request the Map-Step makes with a prompt. *)
Definition map_request (p : string) : request :=
  Request p (Some SYS_MESSAGE) MAP_LLM None.

(** What the [try] suite of the Map-Step evaluates to for a page content
    when [n] provider calls were made before, and the calls it makes. *)
Definition summarize (n : nat) (content : string) : result string :=
  match build_prompt SUMMARY_PROMPT_TPL
          [("text", VStr content); ("max_words", VInt MAP_MAX_WORDS)] with
  | Return p => get_chat_response n (map_request p)
  | Raise e => Raise e
  end.

Definition map_calls (content : string) : list request :=
  match build_prompt SUMMARY_PROMPT_TPL
          [("text", VStr content); ("max_words", VInt MAP_MAX_WORDS)] with
  | Return p => [map_request p]
  | Raise _ => []
  end.

(** The same for the [try] suite of the Reduce-Step and a joined text. *)
Definition reduce_request (p : string) : request :=
  Request p (Some SYS_MESSAGE) REDUCE_LLM (Some 1024%Z).

Definition consolidate (n : nat) (t : string) : result string :=
  match build_prompt REDUCE_SUMMARY_PROMPT_TPL
          [("text", VStr t); ("max_words", VInt REDUCE_MAX_WORDS)] with
  | Return p => get_chat_response n (reduce_request p)
  | Raise e => Raise e
  end.

Definition reduce_calls (t : string) : list request :=
  match build_prompt REDUCE_SUMMARY_PROMPT_TPL
          [("text", VStr t); ("max_words", VInt REDUCE_MAX_WORDS)] with
  | Return p => [reduce_request p]
  | Raise _ => []
  end.

(** What the provider answered to a run of calls, the first of which was
    call number [n]. *)
Definition responses (n : nat) (reqs : list request) : list (result string) :=
  imap (λ i r, get_chat_response (n + i) r) reqs.

(** Every page content of [cs] is summarised, giving [ss] (the calls are
    numbered from [n]). *)
Fixpoint all_succeed (n : nat) (cs ss : list string) : Prop :=
  match cs, ss with
  | [], [] => True
  | c :: cs', s :: ss' => summarize n c = Return s ∧ all_succeed (S n) cs' ss'
  | _, _ => False
  end.

(** The first page, if there is one, is summarised. *)
Definition head_succeeds (n : nat) (pages : list (Z * string)) : Prop :=
  match pages with
  | [] => True
  | (_, c) :: _ => ∃ s, summarize n c = Return s
  end.

(** What the [try] suites of the pages of contents [cs] evaluate to, page
    after page, when [n] provider calls were made before the first: the
    call counter advances by the calls each page makes. *)
Fixpoint outcomes (n : nat) (cs : list string) : list (result string) :=
  match cs with
  | [] => []
  | c :: cs' => summarize n c :: outcomes (n + length (map_calls c)) cs'
  end.

(** The dict the Reduce-Step binds to [output] for the summaries [l], if
    its [try] suite completes. *)
Definition bundle (n : nat) (l : list string) : option (list (string * pyvalue)) :=
  match consolidate n (reduce_input l) with
  | Return f => Some [("final_summary", VStr f); ("map_summaries", VList l)]
  | Raise _ => None
  end.

End Outcomes.

(** ** Mock collaborators for concrete runs *)

(** A prompt builder that never fails: the template, then the [text]
    argument. *)
Definition mock_build_prompt (tpl : string) (kw : list (string * pyvalue)) : result string :=
  match kw with
  | (_, VStr t) :: _ => Return (tpl +:+ t)
  | _ => Return tpl
  end.

(** A provider that answers "SN" to the prompt of a page "pN" (the last
    character of the prompt after an "S"), "FINAL" to a reduce request, and
    fails on the calls whose numbers are listed in [failing]. *)
Definition mock_provider (failing : list nat) (n : nat) (req : request) : result string :=
  if bool_decide (n ∈ failing) then Raise (Exn "RateLimitError" "slow down")
  else if String.eqb (model req) REDUCE_LLM then Return "FINAL"
  else Return ("S" +:+ String.substring (Nat.pred (String.length (prompt req))) 1 (prompt req)).

Definition demo_pages : list (Z * string) := [(1%Z, "p1"); (2%Z, "p2"); (3%Z, "p3")].

(** The Map-Step cell, the reduce stage and the whole notebook with these
    collaborators. *)
Definition demo_map (failing : list nat) (pages : list (Z * string)) : kernel * result unit :=
  cell_map "map:" mock_build_prompt (mock_provider failing) pages fresh.

Definition demo_reduce (failing : list nat) (k : kernel) : kernel * result unit :=
  run_reduce "reduce:" mock_build_prompt (mock_provider failing) k.

Definition demo_run (failing : list nat) (pages : list (Z * string)) : kernel * result unit :=
  run_all "map:" "reduce:" mock_build_prompt (mock_provider failing) pages fresh.

(** The kernel after a Map-Step that left the summaries [l]. *)
Definition kernel_with (l : list string) : kernel :=
  Kernel (Some l) None None None None [] [] [].

(** ** The template binder *)

Module Template.

(** Modelled from the spec: the error with which the prompt builder
    [build_prompt] of [genaipy.prompts.build_prompt] (the specification's
    [bind]) fails; the builder is imported by the notebook, its source is
    not included. *)
Definition TemplateError (placeholder : string) : exn :=
  Exn "TemplateError" placeholder.

(** Prefixing the text produced so far. *)
Definition prepend (s : string) (r : result string) : result string :=
  match r with
  | Return t => Return (s +:+ t)
  | Raise e => Raise e
  end.

(** Modelled from the spec: one scan of the template by the prompt builder
    [build_prompt] (the specification's [bind]), whose source is not
    included.  The specification gives it a template, a string with named
    placeholders written [{name}], and a mapping from placeholder names to
    values; it fails with a [TemplateError] when a referenced placeholder
    has no binding and ignores the bindings the template never references.
    [hole] is the part of a placeholder name read since the last opening
    brace, if one is open.  A brace that is opened and never closed delimits
    no name; the specification does not speak of it, and it is copied as it
    stands. *)
Fixpoint bind_from (bindings : gmap string string) (hole : option string)
    (template : string) : result string :=
  match template with
  | EmptyString =>
      match hole with
      | None => Return ""
      | Some name => Return (String "{" name)
      end
  | String c rest =>
      match hole with
      | None =>
          if Ascii.eqb c "{" then bind_from bindings (Some "") rest
          else prepend (String c "") (bind_from bindings None rest)
      | Some name =>
          if Ascii.eqb c "}" then
            match bindings !! name with
            | Some v => prepend v (bind_from bindings None rest)
            | None => Raise (TemplateError name)
            end
          else bind_from bindings (Some (name +:+ String c "")) rest
      end
  end.

(** Modelled from the spec: [bind(template, bindings)], the prompt builder
    [build_prompt] whose source is not included (see [bind_from]). *)
Definition bind (template : string) (bindings : gmap string string) : result string :=
  bind_from bindings None template.

(** The placeholders a template references, in order. *)
Fixpoint placeholders_from (hole : option string) (template : string) : list string :=
  match template with
  | EmptyString => []
  | String c rest =>
      match hole with
      | None =>
          if Ascii.eqb c "{" then placeholders_from (Some "") rest
          else placeholders_from None rest
      | Some name =>
          if Ascii.eqb c "}" then name :: placeholders_from None rest
          else placeholders_from (Some (name +:+ String c "")) rest
      end
  end.

Definition placeholders (template : string) : list string :=
  placeholders_from None template.

End Template.

(** ** Further vocabulary *)

(** The keyword arguments with which the Map-Step and the Reduce-Step call
    the provider. *)
Definition is_map_call (r : request) : Prop :=
  sys_message r = Some SYS_MESSAGE ∧ model r = MAP_LLM ∧ max_tokens r = None.

Definition is_reduce_call (r : request) : Prop :=
  sys_message r = Some SYS_MESSAGE ∧ model r = REDUCE_LLM ∧
  max_tokens r = Some 1024%Z.

(** A run of [n] newlines. *)
Fixpoint newlines (n : nat) : string :=
  match n with
  | O => ""
  | S m => nl +:+ newlines m
  end.

(** ** The start of the Map-Reduce notebook: loading the PDF *)

Definition PDF_URL : string := "demos/data/transformers_attention_paper.pdf".
Definition START : Z := 1%Z.
Definition END : Z := 10%Z.

Section Loading.

(** The PDF extractor: path, first and last page in, the dict of the pages
    out, or an exception. *)
Variable extract_pages_text : string -> Z -> Z -> result (list (Z * string)).

(** The cell that loads the pages and prints how many there are. *)
Definition cell_load : py (list (Z * string)) :=
  pages ← lift (extract_pages_text PDF_URL START END);
  print ("Successfully loaded text from " +:+ pretty (length pages)
         +:+ " PDF pages.");;
  mret pages.

End Loading.

(** ** The cells, with the classes of the exceptions *)

(** The cells above take every exception a collaborator raises for an
    instance of [Exception].  Python also has exceptions that are not
    ([KeyboardInterrupt], [SystemExit]: instances of [BaseException] only),
    and an [except Exception] clause lets those pass.  This module states
    the cells over a predicate that tells the two kinds apart.  As above,
    the exceptions are the ones the collaborators raise, and [NameError]
    for a variable that is not bound; an interrupt delivered between two
    statements of a cell is outside the model. *)
Module ByClass.

Section Cells.

(** [is_exception e]: is [e] an instance of [Exception]? *)
Variable is_exception : exn -> bool.
Variable SUMMARY_PROMPT_TPL : string.
Variable REDUCE_SUMMARY_PROMPT_TPL : string.
Variable build_prompt : string -> list (string * pyvalue) -> result string.
Variable get_chat_response : nat -> request -> result string.
Variable extract_pages_text : string -> Z -> Z -> result (list (Z * string)).

(** [try: body / except Exception as e: handler e]: an exception that is not
    an instance of [Exception] leaves the statement. *)
Definition try_except {A} (body : py A) (handler : exn -> py A) : py A :=
  fun k =>
    match body k with
    | (k', Return a) => (k', Return a)
    | (k', Raise e) => if is_exception e then handler e k' else (k', Raise e)
    end.

(** [try: body / except Exception as e: handler e / else: orelse] *)
Definition try_except_else {A B} (body : py A) (handler : exn -> py B)
    (orelse : A -> py B) : py B :=
  fun k =>
    match body k with
    | (k', Return a) => orelse a k'
    | (k', Raise e) => if is_exception e then handler e k' else (k', Raise e)
    end.

(** Does an [except Exception] clause catch what a suite evaluated to, if
    it raised? *)
Definition caught {A} (r : result A) : bool :=
  match r with
  | Return _ => true
  | Raise e => is_exception e
  end.

(** The body of the Map-Step loop. *)
Definition map_iteration (pages : list (Z * string)) (page : Z) : py unit :=
  try_except
    (content ← subscript pages page;
     map_prompt ← lift (build_prompt SUMMARY_PROMPT_TPL
                          [("text", VStr content); ("max_words", VInt MAP_MAX_WORDS)]);
     s ← chat get_chat_response (Request map_prompt (Some SYS_MESSAGE) MAP_LLM None);
     store_summary s;;
     append_map_summaries s;;
     logging INFO "Map Summary #%d: %s" [VInt page; VStr s])
    (λ e,
     s ← load "summary" summary;
     logging ERROR "An error occured while generating summary #%d: %s"
       [VInt page; VStr s]).

(** The Map-Step cell. *)
Definition cell_map (pages : list (Z * string)) : py unit :=
  store_map_summaries [];;
  for_each pages.*1 (map_iteration pages).

(** The Reduce-Step cell. *)
Definition cell_reduce : py unit :=
  try_except_else
    (t ← load "text" text;
     reduce_prompt ← lift (build_prompt REDUCE_SUMMARY_PROMPT_TPL
                             [("text", VStr t); ("max_words", VInt REDUCE_MAX_WORDS)]);
     f ← chat get_chat_response
           (Request reduce_prompt (Some SYS_MESSAGE) REDUCE_LLM (Some 1024%Z));
     store_final_summary f;;
     logging INFO ("Final Reduce Summary:" +:+ nl +:+ "%s") [VStr f])
    (λ e,
     logging ERROR "An error occured while generating final summary: %s" [VExn e])
    (λ _,
     f ← load "final_summary" final_summary;
     l ← load "map_summaries" map_summaries;
     store_output [("final_summary", VStr f); ("map_summaries", VList l)]).

(** The reduce stage: the join cell, then the Reduce-Step cell. *)
Definition run_reduce : py unit := cell_join;; cell_reduce.

(** Map-Step, join and Reduce-Step, cell after cell. *)
Definition run_all (pages : list (Z * string)) : py unit :=
  cell_map pages;; run_reduce.

(** The notebook from its first code cell on. *)
Definition notebook : py unit :=
  pages ← cell_load extract_pages_text;
  run_all pages.

End Cells.

End ByClass.

(** Of the built-in classes, these are not subclasses of [Exception]. *)
Definition builtin_is_exception (e : exn) : bool :=
  match e with
  | Exn cls _ =>
      negb (bool_decide (cls ∈ ["BaseException"; "KeyboardInterrupt";
                                "SystemExit"; "GeneratorExit"]))
  end.

(** A provider that is interrupted at the call number [at_call] and is the
    mock provider at the others. *)
Definition interrupted_provider (failing : list nat) (at_call : nat) (n : nat)
    (req : request) : result string :=
  if bool_decide (n = at_call) then Raise (Exn "KeyboardInterrupt" "")
  else mock_provider failing n req.

Definition demo_map_by_class (provider : nat -> request -> result string)
    (k : kernel) : kernel * result unit :=
  ByClass.cell_map builtin_is_exception "map:" mock_build_prompt provider
    demo_pages k.

(** A PDF extractor with two pages, and one that fails. *)
Definition mock_extract_pages (path : string) (first last : Z) : result (list (Z * string)) :=
  Return [(1%Z, "p1"); (2%Z, "p2")].

Definition failing_extract_pages (path : string) (first last : Z) : result (list (Z * string)) :=
  Raise (Exn "FileNotFoundError" path).

Definition demo_notebook (provider : nat -> request -> result string)
    (extract : string -> Z -> Z -> result (list (Z * string))) (k : kernel)
    : kernel * result unit :=
  ByClass.notebook builtin_is_exception "map:" "reduce:" mock_build_prompt
    provider extract k.

(** ** The notebook "Creating Content from Webpage" *)

Definition URL : string :=
  "https://ai.meta.com/blog/large-language-model-llama-meta-ai/".
Definition TAGS : list string := ["p"; "h1"].
Definition SYSTEM_MESSAGE : string :=
  "You are an expert content creator on LinkedIn. You excell at communicating complex topics in Generative AI in a simple and professional way.".

(** The arguments of one [get_chat_response] call of this notebook; the
    model is [None] where the call leaves it at its default. *)
Record chat_call : Type := ChatCall {
  c_prompt : string;
  c_sys_message : option string;
  c_temperature : Q;
  c_model : option string
}.

(** What a cell shows: the [Markdown] object it ends with, or a [print]. *)
Inductive shown : Type :=
| Displayed (s : string)
| Printed (s : string).

(** The global variables of this notebook's kernel, the provider calls made
    so far and what was shown.  [prompt], [style_prompt] and
    [generate_prompt] are read only right after they are bound and are
    let-bound below. *)
Record web_kernel : Type := WebKernel {
  w_text : option string;
  w_summary : option string;
  w_tpl : option string;
  w_styled_summary : option string;
  w_system_message : option string;
  w_post : option string;
  w_calls : list chat_call;
  w_shown : list shown
}.

Definition web_fresh : web_kernel :=
  WebKernel None None None None None None [] [].

(** A statement of this notebook. *)
Definition web (A : Type) : Type := web_kernel -> web_kernel * result A.

Definition web_ret {A} (a : A) : web A := fun k => (k, Return a).

Definition web_bind {A B} (f : A -> web B) (m : web A) : web B :=
  fun k =>
    match m k with
    | (k', Return a) => f a k'
    | (k', Raise e) => (k', Raise e)
    end.

#[global] Instance web_mret : MRet web := @web_ret.
#[global] Instance web_mbind : MBind web := @web_bind.

Definition web_lift {A} (r : result A) : web A := fun k => (k, r).

Definition web_load (name : string) (var : web_kernel -> option string) : web string :=
  fun k =>
    match var k with
    | Some v => (k, Return v)
    | None => (k, Raise (NameError name))
    end.

Definition store_w_text (v : string) : web unit := fun k =>
  (WebKernel (Some v) (w_summary k) (w_tpl k) (w_styled_summary k)
     (w_system_message k) (w_post k) (w_calls k) (w_shown k), Return tt).

Definition store_w_summary (v : string) : web unit := fun k =>
  (WebKernel (w_text k) (Some v) (w_tpl k) (w_styled_summary k)
     (w_system_message k) (w_post k) (w_calls k) (w_shown k), Return tt).

Definition store_w_tpl (v : string) : web unit := fun k =>
  (WebKernel (w_text k) (w_summary k) (Some v) (w_styled_summary k)
     (w_system_message k) (w_post k) (w_calls k) (w_shown k), Return tt).

Definition store_w_styled_summary (v : string) : web unit := fun k =>
  (WebKernel (w_text k) (w_summary k) (w_tpl k) (Some v)
     (w_system_message k) (w_post k) (w_calls k) (w_shown k), Return tt).

Definition store_w_system_message (v : string) : web unit := fun k =>
  (WebKernel (w_text k) (w_summary k) (w_tpl k) (w_styled_summary k)
     (Some v) (w_post k) (w_calls k) (w_shown k), Return tt).

Definition store_w_post (v : string) : web unit := fun k =>
  (WebKernel (w_text k) (w_summary k) (w_tpl k) (w_styled_summary k)
     (w_system_message k) (Some v) (w_calls k) (w_shown k), Return tt).

Definition show (x : shown) : web unit := fun k =>
  (WebKernel (w_text k) (w_summary k) (w_tpl k) (w_styled_summary k)
     (w_system_message k) (w_post k) (w_calls k) (w_shown k ++ [x]), Return tt).

Section WebNotebook.

(** Two methods of [str], which work on the code points of a string:
    [s.strip()] removes the leading and the trailing white space (of
    Unicode), [s[:n]] is the first [n] code points.  A [string] here is a
    list of bytes, so the two are parameters of the notebook rather than
    functions on bytes. *)
Variable strip : string -> string.
Variable slice_to : nat -> string -> string.

(** What the notebook imports from [genaipy]: the text extractor
    ([extract_text], later renamed [extract_tags_contents]), the three prompt
    builders, the outline and the Chat API call.  The later version of the
    notebook builds its prompts with [build_prompt] and a template; see
    [later_workflow] below. *)
Variable extract_text : string -> list string -> result string.
Variable build_summary_prompt : string -> Z -> result string.
Variable build_style_prompt : string -> string -> result string.
Variable build_post_prompt : string -> Z -> result string.
Variable BASIC_SUMMARY_OUTLINE : string.
Variable get_chat_response : nat -> chat_call -> result string.

Definition web_chat (c : chat_call) : web string := fun k =>
  (WebKernel (w_text k) (w_summary k) (w_tpl k) (w_styled_summary k)
     (w_system_message k) (w_post k) (w_calls k ++ [c]) (w_shown k),
   get_chat_response (length (w_calls k)) c).

(** Extract text from webpage *)
Definition cell_extract : web unit :=
  t ← web_lift (extract_text URL TAGS);
  store_w_text t;;
  t ← web_load "text" w_text;
  show (Displayed (slice_to 1200 t)).

(** Step 1/3: generate summary *)
Definition cell_summary : web unit :=
  t ← web_load "text" w_text;
  prompt ← web_lift (build_summary_prompt t 150%Z);
  s ← web_chat (ChatCall prompt None (2 # 10)%Q None);
  store_w_summary s;;
  s ← web_load "summary" w_summary;
  show (Displayed s).

(** Load structured outline *)
Definition cell_outline : web unit :=
  store_w_tpl (strip BASIC_SUMMARY_OUTLINE);;
  tpl ← web_load "tpl" w_tpl;
  show (Printed tpl).

(** Step 2/3: generate structured summary *)
Definition cell_style : web unit :=
  s ← web_load "summary" w_summary;
  tpl ← web_load "tpl" w_tpl;
  style_prompt ← web_lift (build_style_prompt s tpl);
  r ← web_chat (ChatCall style_prompt None 0%Q None);
  store_w_styled_summary r;;
  r ← web_load "styled_summary" w_styled_summary;
  show (Displayed r).

(** Define custom role *)
Definition cell_role : web unit :=
  store_w_system_message SYSTEM_MESSAGE;;
  m ← web_load "system_message" w_system_message;
  show (Displayed m).

(** Step 3/3: generate LinkedIn post *)
Definition cell_post : web unit :=
  r ← web_load "styled_summary" w_styled_summary;
  generate_prompt ← web_lift (build_post_prompt r 150%Z);
  m ← web_load "system_message" w_system_message;
  p ← web_chat (ChatCall generate_prompt (Some m) (5 # 10)%Q
                  (Some "gpt-4-1106-preview"));
  store_w_post p;;
  p ← web_load "post" w_post;
  show (Displayed p).

(** The notebook, cell after cell. *)
Definition workflow : web unit :=
  cell_extract;; cell_summary;; cell_outline;; cell_style;; cell_role;; cell_post.

End WebNotebook.

(** The prompt builders of the later version of the notebook:
    [build_prompt] with a template and the same keyword arguments. *)
Definition later_summary_prompt (build_prompt : string -> list (string * pyvalue) -> result string)
    (SUMMARY_PROMPT_TPL : string) (t : string) (max_words : Z) : result string :=
  build_prompt SUMMARY_PROMPT_TPL [("text", VStr t); ("max_words", VInt max_words)].

Definition later_style_prompt (build_prompt : string -> list (string * pyvalue) -> result string)
    (STYLE_TEXT_TPL : string) (t tpl : string) : result string :=
  build_prompt STYLE_TEXT_TPL [("text", VStr t); ("tpl", VStr tpl)].

Definition later_post_prompt (build_prompt : string -> list (string * pyvalue) -> result string)
    (GENERATE_POST_TPL : string) (t : string) (max_words : Z) : result string :=
  build_prompt GENERATE_POST_TPL [("text", VStr t); ("max_words", VInt max_words)].

(** The later version of the notebook. *)
Definition later_workflow (strip : string -> string)
    (slice_to : nat -> string -> string)
    (extract_tags_contents : string -> list string -> result string)
    (build_prompt : string -> list (string * pyvalue) -> result string)
    (SUMMARY_PROMPT_TPL STYLE_TEXT_TPL GENERATE_POST_TPL BASIC_SUMMARY_OUTLINE : string)
    (get_chat_response : nat -> chat_call -> result string) : web unit :=
  workflow strip slice_to extract_tags_contents
    (later_summary_prompt build_prompt SUMMARY_PROMPT_TPL)
    (later_style_prompt build_prompt STYLE_TEXT_TPL)
    (later_post_prompt build_prompt GENERATE_POST_TPL)
    BASIC_SUMMARY_OUTLINE get_chat_response.

(** The two methods of [str] on the strings of ASCII characters, where a
    byte is a code point.  White space is then: tab to carriage return, the
    four separators and the space. *)
Definition ascii_isspace (c : ascii) : bool :=
  let n := nat_of_ascii c in
  (Nat.leb 9 n && Nat.leb n 13) || (Nat.leb 28 n && Nat.leb n 32).

Fixpoint ascii_lstrip (s : string) : string :=
  match s with
  | EmptyString => EmptyString
  | String c s' => if ascii_isspace c then ascii_lstrip s' else s
  end.

Fixpoint ascii_rstrip (s : string) : string :=
  match s with
  | EmptyString => EmptyString
  | String c s' =>
      match ascii_rstrip s' with
      | EmptyString => if ascii_isspace c then EmptyString else String c EmptyString
      | String d r => String c (String d r)
      end
  end.

Definition ascii_strip (s : string) : string := ascii_rstrip (ascii_lstrip s).

Definition ascii_slice_to (n : nat) (s : string) : string := String.substring 0 n s.

(** Mock collaborators of this notebook: an extractor, and a provider that
    answers with the prompt between brackets and fails on the calls whose
    numbers are listed in [failing]. *)
Definition mock_extract (url : string) (tags : list string) : result string :=
  Return "page text".

Definition mock_web_provider (failing : list nat) (n : nat) (c : chat_call) : result string :=
  if bool_decide (n ∈ failing) then Raise (Exn "RateLimitError" "slow down")
  else Return ("[" +:+ c_prompt c +:+ "]").

Definition demo_workflow (failing : list nat) : web_kernel * result unit :=
  later_workflow ascii_strip ascii_slice_to mock_extract mock_build_prompt
    "sum:" "style:" "post:"
    ("  outline" +:+ nl) (mock_web_provider failing) web_fresh.


(** * The clean-up of doubled newlines *)

Lemma replace_from_head old new c s :
  replace_from old new 0 (String c s) =
    if startswith old (String c s)
    then new +:+ replace_from old new (Nat.pred (String.length old)) s
    else String c (replace_from old new 0 s).
Proof. reflexivity. Qed.

Lemma startswith_cons a p b s :
  startswith (String a p) (String b s) =
    if Ascii.eqb a b then startswith p s else false.
Proof. reflexivity. Qed.

Lemma startswith_empty s : startswith "" s = true.
Proof. by destruct s. Qed.

Lemma startswith_nl c s : startswith nl (String c s) = Ascii.eqb "010" c.
Proof.
  unfold nl. rewrite startswith_cons, startswith_empty.
  by destruct (Ascii.eqb _ _).
Qed.

Lemma startswith_nlnl c s :
  startswith (nl +:+ nl) (String c s) =
    Ascii.eqb "010" c && startswith nl s.
Proof.
  change (nl +:+ nl) with (String "010" nl). rewrite startswith_cons.
  by destruct (Ascii.eqb _ _).
Qed.

(** A text without a doubled newline is left as it is. *)
Lemma replace_no_occurrence s :
  contains (nl +:+ nl) s = false ->
  replace (nl +:+ nl) "" s = s.
Proof.
  unfold replace. induction s as [|c s IH]; [reflexivity|].
  intros H. change (startswith (nl +:+ nl) (String c s) || contains (nl +:+ nl) s = false) in H.
  apply orb_false_iff in H as [Hhead Htail].
  rewrite replace_from_head, Hhead. f_equal. by apply IH.
Qed.

(** The leftmost doubled newline is deleted, and the scan goes on behind
    it. *)
Lemma replace_leftmost pre post :
  contains (nl +:+ nl) (pre +:+ nl) = false ->
  replace (nl +:+ nl) "" (pre +:+ nl +:+ nl +:+ post) =
    pre +:+ replace (nl +:+ nl) "" post.
Proof.
  unfold replace. induction pre as [|c pre IH]; [reflexivity|].
  intros H.
  change (startswith (nl +:+ nl) (String c (pre +:+ nl))
          || contains (nl +:+ nl) (pre +:+ nl) = false) in H.
  apply orb_false_iff in H as [Hhead Htail].
  change (String c pre +:+ nl +:+ nl +:+ post)
    with (String c (pre +:+ nl +:+ nl +:+ post)).
  rewrite replace_from_head.
  replace (startswith (nl +:+ nl) (String c (pre +:+ nl +:+ nl +:+ post)))
    with false.
  - by rewrite (IH Htail).
  - rewrite <- Hhead, !startswith_nlnl. f_equal.
    destruct pre as [|d pre]; [reflexivity|].
    change (String d pre +:+ nl) with (String d (pre +:+ nl)).
    change (String d pre +:+ nl +:+ nl +:+ post)
      with (String d (pre +:+ nl +:+ nl +:+ post)).
    by rewrite !startswith_nl.
Qed.

Lemma without_cons a c s :
  without a (String c s) =
    if Ascii.eqb c a then without a s else String c (without a s).
Proof. reflexivity. Qed.

Lemma contains_cons p c s :
  contains p (String c s) = startswith p (String c s) || contains p s.
Proof. reflexivity. Qed.

(** Only newlines are ever removed. *)
Lemma replace_keeps_other_characters s :
  without "010" (replace (nl +:+ nl) "" s) = without "010" s.
Proof.
  unfold replace.
  enough (without "010" (replace_from (nl +:+ nl) "" 0 s) = without "010" s ∧
          (startswith nl s = true ->
           without "010" (replace_from (nl +:+ nl) "" 1 s) = without "010" s))
    by tauto.
  induction s as [|c s [IH0 IH1]]; [done|]. split.
  - rewrite replace_from_head, startswith_nlnl, (without_cons _ c s).
    rewrite (Ascii.eqb_sym c).
    destruct (Ascii.eqb "010" c) eqn:Hc; cbn [andb].
    + destruct (startswith nl s); [by apply IH1|].
      by rewrite without_cons, Ascii.eqb_sym, Hc, IH0.
    + by rewrite without_cons, Ascii.eqb_sym, Hc, IH0.
  - rewrite startswith_nl, without_cons, Ascii.eqb_sym. intros ->. exact IH0.
Qed.

(** After the pass no doubled newline is left: a run of newlines keeps one
    newline when its length is odd and none when it is even. *)
Lemma replace_leaves_no_double_newline s :
  contains (nl +:+ nl) (replace (nl +:+ nl) "" s) = false.
Proof.
  unfold replace.
  enough ((contains (nl +:+ nl) (replace_from (nl +:+ nl) "" 0 s) = false ∧
           (startswith nl s = false ->
            startswith nl (replace_from (nl +:+ nl) "" 0 s) = false)) ∧
          contains (nl +:+ nl) (replace_from (nl +:+ nl) "" 1 s) = false)
    by tauto.
  induction s as [|c s [[IH0 IHs] IH1]]; [done|]. split; [split|].
  - rewrite replace_from_head, startswith_nlnl.
    destruct (Ascii.eqb "010" c) eqn:Hc; cbn [andb].
    + destruct (startswith nl s) eqn:Hs; [exact IH1|].
      by rewrite contains_cons, startswith_nlnl, IH0, (IHs eq_refl), andb_false_r.
    + by rewrite contains_cons, startswith_nlnl, IH0, Hc.
  - rewrite startswith_nl. intros Hc.
    rewrite replace_from_head, startswith_nlnl, Hc. cbn [andb].
    by rewrite startswith_nl.
  - exact IH0.
Qed.

(** * Properties of the notebook *)

Section NotebookProperties.

Variable SUMMARY_PROMPT_TPL : string.
Variable REDUCE_SUMMARY_PROMPT_TPL : string.
Variable build_prompt : string -> list (string * pyvalue) -> result string.
Variable get_chat_response : nat -> request -> result string.

Local Abbreviation map_iteration' :=
  (map_iteration SUMMARY_PROMPT_TPL build_prompt get_chat_response).
Local Abbreviation cell_map' :=
  (cell_map SUMMARY_PROMPT_TPL build_prompt get_chat_response).
Local Abbreviation cell_reduce' :=
  (cell_reduce REDUCE_SUMMARY_PROMPT_TPL build_prompt get_chat_response).
Local Abbreviation run_reduce' :=
  (run_reduce REDUCE_SUMMARY_PROMPT_TPL build_prompt get_chat_response).
Local Abbreviation run_all' :=
  (run_all SUMMARY_PROMPT_TPL REDUCE_SUMMARY_PROMPT_TPL build_prompt get_chat_response).
Local Abbreviation summarize' :=
  (summarize SUMMARY_PROMPT_TPL build_prompt get_chat_response).
Local Abbreviation map_calls' := (map_calls SUMMARY_PROMPT_TPL build_prompt).
Local Abbreviation consolidate' :=
  (consolidate REDUCE_SUMMARY_PROMPT_TPL build_prompt get_chat_response).
Local Abbreviation reduce_calls' := (reduce_calls REDUCE_SUMMARY_PROMPT_TPL build_prompt).
Local Abbreviation responses' := (responses get_chat_response).
Local Abbreviation all_succeed' :=
  (all_succeed SUMMARY_PROMPT_TPL build_prompt get_chat_response).
Local Abbreviation head_succeeds' :=
  (head_succeeds SUMMARY_PROMPT_TPL build_prompt get_chat_response).
Local Abbreviation bundle' :=
  (bundle REDUCE_SUMMARY_PROMPT_TPL build_prompt get_chat_response).
Local Abbreviation outcomes' :=
  (outcomes SUMMARY_PROMPT_TPL build_prompt get_chat_response).

Ltac py_unfold :=
  unfold try_except, try_except_else, append_map_summaries, mbind, py_mbind,
    py_bind, mret, py_mret, py_ret, subscript, lift, chat, load,
    store_map_summaries, store_summary, store_text, store_final_summary,
    store_output, logging, print in *.

(** *** One iteration of the Map-Step loop *)

Lemma map_iteration_cases pages page c k ms :
  dict_get page pages = Some c ->
  map_summaries k = Some ms ->
  map_iteration' pages page k =
    match summarize' (length (calls k)) c with
    | Return s =>
        (Kernel (Some (ms ++ [s])) (Some s) (text k) (final_summary k) (output k)
           (log k ++ [map_info page s]) (calls k ++ map_calls' c) (stdout k),
         Return tt)
    | Raise e =>
        match summary k with
        | Some s0 =>
            (Kernel (map_summaries k) (summary k) (text k) (final_summary k)
               (output k) (log k ++ [map_error page s0])
               (calls k ++ map_calls' c) (stdout k), Return tt)
        | None =>
            (Kernel (map_summaries k) (summary k) (text k) (final_summary k)
               (output k) (log k) (calls k ++ map_calls' c) (stdout k),
             Raise (NameError "summary"))
        end
    end.
Proof.
  intros Hget Hms. unfold summarize, map_calls, map_iteration. py_unfold.
  rewrite Hget.
  destruct (build_prompt _ _) as [p|e]; simpl.
  - unfold map_request. destruct (get_chat_response _ _) as [s|e]; simpl.
    + rewrite Hms. reflexivity.
    + destruct (summary k); reflexivity.
  - rewrite app_nil_r. destruct k as [a b c0 d e0 f g h]; simpl.
    destruct b; reflexivity.
Qed.

Lemma dict_get_keys {V} (d : list (Z * V)) :
  Forall (λ p, is_Some (dict_get p d)) d.*1.
Proof.
  induction d as [|[p v] d IH]; simpl; constructor.
  - rewrite decide_True by done. eauto.
  - eapply Forall_impl; [exact IH|]. intros q Hq. simpl.
    destruct (decide (p = q)); eauto.
Qed.

Lemma dict_get_elem_of {V} (d : list (Z * V)) p v :
  NoDup d.*1 -> (p, v) ∈ d -> dict_get p d = Some v.
Proof.
  induction d as [|[q w] d IH]; simpl; intros Hnd Hin.
  - by apply elem_of_nil in Hin.
  - apply NoDup_cons in Hnd as [Hq Hnd].
    apply elem_of_cons in Hin as [Heq|Hin].
    + injection Heq as -> ->. by rewrite decide_True.
    + rewrite decide_False; [by apply IH|].
      intros ->. apply Hq. apply list_elem_of_fmap. by exists (p, v).
Qed.

Lemma dict_get_NoDup {V} (d : list (Z * V)) :
  NoDup d.*1 -> Forall2 (λ p v, dict_get p d = Some v) d.*1 d.*2.
Proof.
  intros Hnd. apply Forall2_fmap, Forall_Forall2_diag, Forall_forall.
  intros [p v] Hin. by apply dict_get_elem_of.
Qed.

Lemma responses_app n a b :
  responses' n (a ++ b) = responses' n a ++ responses' (n + length a) b.
Proof.
  unfold responses. rewrite imap_app. f_equal. apply imap_ext.
  intros i r _. simpl. f_equal. lia.
Qed.

Lemma successes_app a b : successes (a ++ b) = successes a ++ successes b.
Proof. apply omap_app. Qed.

Lemma successes_map_calls n c :
  successes (responses' n (map_calls' c)) = successes [summarize' n c].
Proof.
  unfold map_calls, summarize, responses.
  destruct (build_prompt _ _); simpl; [|reflexivity].
  by rewrite Nat.add_0_r.
Qed.

Lemma for_each_cons {A} (x : A) rest body k :
  for_each (x :: rest) body k =
    match body x k with
    | (k', Return _) => for_each rest body k'
    | (k', Raise e) => (k', Raise e)
    end.
Proof. reflexivity. Qed.

(** *** The Reduce stage, case by case *)

Lemma run_reduce_cases k ms :
  map_summaries k = Some ms ->
  run_reduce' k =
    match consolidate' (length (calls k)) (reduce_input ms) with
    | Return f =>
        (Kernel (Some ms) (summary k) (Some (reduce_input ms)) (Some f)
           (Some [("final_summary", VStr f); ("map_summaries", VList ms)])
           (log k ++ [reduce_info f])
           (calls k ++ reduce_calls' (reduce_input ms))
           (stdout k ++ [reduce_input ms]), Return tt)
    | Raise e =>
        (Kernel (Some ms) (summary k) (Some (reduce_input ms)) (final_summary k)
           (output k) (log k ++ [reduce_error e])
           (calls k ++ reduce_calls' (reduce_input ms))
           (stdout k ++ [reduce_input ms]), Return tt)
    end.
Proof.
  intros Hms. unfold run_reduce, cell_join, cell_reduce, consolidate, reduce_calls.
  py_unfold. rewrite Hms. simpl. fold (reduce_input ms).
  destruct (build_prompt _ _) as [p|e]; simpl.
  - unfold reduce_request.
    destruct (get_chat_response _ _) as [f|e]; simpl; rewrite ?Hms; reflexivity.
  - by rewrite app_nil_r, Hms.
Qed.

(** *** The Map-Step loop *)

Lemma for_each_provider_strings pages keys :
  ∀ k ms,
    map_summaries k = Some ms ->
    Forall (λ p, is_Some (dict_get p pages)) keys ->
    ∃ new,
      calls (for_each keys (map_iteration' pages) k).1 = calls k ++ new ∧
      map_summaries (for_each keys (map_iteration' pages) k).1 =
        Some (ms ++ successes (responses' (length (calls k)) new)).
Proof.
  induction keys as [|p keys IH]; intros k ms Hms Hkeys.
  - exists []. simpl. by rewrite !app_nil_r.
  - apply Forall_cons in Hkeys as [[c Hc] Hkeys].
    rewrite for_each_cons, (map_iteration_cases _ _ _ _ _ Hc Hms).
    assert (Hsucc := successes_map_calls (length (calls k)) c).
    destruct (summarize' _ c) as [s|e] eqn:Hs.
    + edestruct (IH (Kernel (Some (ms ++ [s])) (Some s) (text k)
                       (final_summary k) (output k) (log k ++ [map_info p s])
                       (calls k ++ map_calls' c) (stdout k)) (ms ++ [s]))
        as (new & Hcalls & Hsum); [reflexivity|exact Hkeys|].
      exists (map_calls' c ++ new). rewrite Hcalls, Hsum. simpl.
      rewrite responses_app, successes_app, Hsucc, length_app. simpl.
      by rewrite <- !app_assoc.
    + destruct (summary k) as [s0|] eqn:Hs0.
      * edestruct (IH (Kernel (map_summaries k) (Some s0) (text k)
                         (final_summary k) (output k) (log k ++ [map_error p s0])
                         (calls k ++ map_calls' c) (stdout k)) ms)
          as (new & Hcalls & Hsum); [exact Hms|exact Hkeys|].
        exists (map_calls' c ++ new). rewrite Hcalls, Hsum. simpl.
        rewrite responses_app, successes_app, Hsucc, length_app. simpl.
        by rewrite <- !app_assoc.
      * exists (map_calls' c). simpl. rewrite Hsucc, Hms. simpl. by rewrite app_nil_r.
Qed.

(** The loop from a kernel in which [summary] is bound: it completes, and
    writes one record per page. *)
Lemma for_each_summary_bound pages keys :
  ∀ k ms s0,
    map_summaries k = Some ms ->
    summary k = Some s0 ->
    Forall (λ p, is_Some (dict_get p pages)) keys ->
    ∃ k' new,
      for_each keys (map_iteration' pages) k = (k', Return tt) ∧
      log k' = log k ++ new ∧
      record_page <$> new = Some <$> keys ∧
      map_summaries k' = Some (ms ++ info_summaries new) ∧
      length (info_summaries new) + length (filter is_error new) = length keys.
Proof.
  induction keys as [|p keys IH]; intros k ms s0 Hms Hs0 Hkeys.
  - exists k, []. simpl. by rewrite !app_nil_r.
  - apply Forall_cons in Hkeys as [[c Hc] Hkeys].
    rewrite for_each_cons, (map_iteration_cases _ _ _ _ _ Hc Hms), Hs0.
    destruct (summarize' _ c) as [s|e].
    + edestruct (IH (Kernel (Some (ms ++ [s])) (Some s) (text k)
                       (final_summary k) (output k) (log k ++ [map_info p s])
                       (calls k ++ map_calls' c) (stdout k)) (ms ++ [s]) s)
        as (k' & new & Hrun & Hlog & Hpages & Hsum & Hlen);
        [reflexivity|reflexivity|exact Hkeys|].
      exists k', (map_info p s :: new). rewrite Hrun, Hlog, Hsum. simpl.
      rewrite <- !app_assoc. split_and!; try done.
      * change (Some p :: (record_page <$> new) = Some p :: (Some <$> keys)).
        by rewrite Hpages.
      * by rewrite <- Hlen.
    + edestruct (IH (Kernel (map_summaries k) (Some s0) (text k)
                       (final_summary k) (output k) (log k ++ [map_error p s0])
                       (calls k ++ map_calls' c) (stdout k)) ms s0)
        as (k' & new & Hrun & Hlog & Hpages & Hsum & Hlen);
        [exact Hms|reflexivity|exact Hkeys|].
      exists k', (map_error p s0 :: new). rewrite Hrun, Hlog, Hsum. simpl.
      rewrite <- !app_assoc. split_and!; try done.
      * change (Some p :: (record_page <$> new) = Some p :: (Some <$> keys)).
        by rewrite Hpages.
      * rewrite <- Hlen. lia.
Qed.

Lemma summarize_one_call n c s :
  summarize' n c = Return s -> length (map_calls' c) = 1.
Proof.
  unfold summarize, map_calls. by destruct (build_prompt _ _).
Qed.

(** The summaries the Map-Step cell leaves are the provider's answers. *)
Lemma cell_map_provider_strings pages k :
  ∃ reqs,
    calls (cell_map' pages k).1 = calls k ++ reqs ∧
    map_summaries (cell_map' pages k).1 =
      Some (successes (responses' (length (calls k)) reqs)).
Proof.
  unfold cell_map. py_unfold. simpl.
  edestruct (for_each_provider_strings pages pages.*1
               (Kernel (Some []) (summary k) (text k) (final_summary k)
                  (output k) (log k) (calls k) (stdout k)) [])
    as (reqs & Hcalls & Hsum); [reflexivity|apply dict_get_keys|].
  exists reqs. split; [exact Hcalls|exact Hsum].
Qed.

(** The Map-Step cell runs to its end once [summary] is bound. *)
Lemma cell_map_completes pages k :
  is_Some (summary k) ∨ head_succeeds' (length (calls k)) pages ->
  ∃ k' new,
    cell_map' pages k = (k', Return tt) ∧
    log k' = log k ++ new ∧
    record_page <$> new = Some <$> pages.*1 ∧
    map_summaries k' = Some (info_summaries new) ∧
    length (info_summaries new) + length (filter is_error new) = length pages.
Proof.
  intros Hstart. unfold cell_map. py_unfold. simpl.
  rewrite <- (length_fmap fst pages).
  destruct Hstart as [[s0 Hs0]|Hhead].
  - edestruct (for_each_summary_bound pages pages.*1
                 (Kernel (Some []) (summary k) (text k) (final_summary k)
                    (output k) (log k) (calls k) (stdout k)) [] s0)
      as (k' & new & Hrun & Hlog & Hpages & Hsum & Hlen);
      [reflexivity|exact Hs0|apply dict_get_keys|].
    exists k', new. by rewrite Hrun.
  - destruct pages as [|[p c] rest].
    + exists (Kernel (Some []) (summary k) (text k) (final_summary k)
                (output k) (log k) (calls k) (stdout k)), [].
      simpl. by rewrite app_nil_r.
    + destruct Hhead as [s Hs].
      assert (Hkeys := dict_get_keys ((p, c) :: rest)).
      apply Forall_cons in Hkeys as [_ Hkeys].
      change (((p, c) :: rest).*1) with (p :: rest.*1).
      rewrite for_each_cons.
      erewrite map_iteration_cases;
        [|simpl; by rewrite decide_True|reflexivity].
      simpl. rewrite Hs.
      edestruct (for_each_summary_bound ((p, c) :: rest) rest.*1
                   (Kernel (Some [s]) (Some s) (text k) (final_summary k)
                      (output k) (log k ++ [map_info p s])
                      (calls k ++ map_calls' c) (stdout k)) [s] s)
        as (k' & new & Hrun & Hlog & Hpages & Hsum & Hlen);
        [reflexivity|reflexivity|exact Hkeys|].
      exists k', (map_info p s :: new). rewrite Hrun, Hlog, Hsum.
      simpl. rewrite <- ?app_assoc. split_and!; try done.
      * change (Some p :: (record_page <$> new) = Some p :: (Some <$> rest.*1)).
        by rewrite Hpages.
      * simpl. by rewrite <- Hlen.
Qed.

(** The loop from a kernel in which [summary] is bound, page by page: the
    record of each page agrees with the outcome of its [try] suite, and the
    summaries appended are the successful outcomes. *)
Lemma for_each_outcomes pages keys :
  ∀ cs k ms s0,
    Forall2 (λ p c, dict_get p pages = Some c) keys cs ->
    map_summaries k = Some ms ->
    summary k = Some s0 ->
    ∃ k' new,
      for_each keys (map_iteration' pages) k = (k', Return tt) ∧
      log k' = log k ++ new ∧
      Forall3 record_agrees new keys (outcomes' (length (calls k)) cs) ∧
      map_summaries k' = Some (ms ++ successes (outcomes' (length (calls k)) cs)) ∧
      calls k' = calls k ++ concat (map_calls' <$> cs).
Proof.
  induction keys as [|p keys IH]; intros cs k ms s0 Hget Hms Hs0.
  - apply Forall2_nil_inv_l in Hget as ->. exists k, []. simpl.
    rewrite !app_nil_r. split_and!; try done. constructor.
  - apply Forall2_cons_inv_l in Hget as (c & cs' & Hc & Hget & ->).
    rewrite for_each_cons, (map_iteration_cases _ _ _ _ _ Hc Hms), Hs0.
    cbn [outcomes].
    destruct (summarize' (length (calls k)) c) as [s|e].
    + edestruct (IH cs'
                   (Kernel (Some (ms ++ [s])) (Some s) (text k)
                      (final_summary k) (output k) (log k ++ [map_info p s])
                      (calls k ++ map_calls' c) (stdout k)) (ms ++ [s]) s)
        as (k' & new & Hrun & Hlog & Hrec & Hsum & Hcalls);
        [exact Hget|reflexivity|reflexivity|].
      cbn [calls] in Hrec, Hsum, Hcalls. rewrite length_app in Hrec, Hsum.
      exists k', (map_info p s :: new). rewrite Hrun, Hlog, Hsum, Hcalls.
      cbn [log successes omap fmap list_fmap concat]. rewrite <- !app_assoc.
      split_and!; try done. by constructor.
    + edestruct (IH cs'
                   (Kernel (map_summaries k) (Some s0) (text k)
                      (final_summary k) (output k) (log k ++ [map_error p s0])
                      (calls k ++ map_calls' c) (stdout k)) ms s0)
        as (k' & new & Hrun & Hlog & Hrec & Hsum & Hcalls);
        [exact Hget|exact Hms|reflexivity|].
      cbn [calls] in Hrec, Hsum, Hcalls. rewrite length_app in Hrec, Hsum.
      exists k', (map_error p s0 :: new). rewrite Hrun, Hlog, Hsum, Hcalls.
      cbn [log successes omap fmap list_fmap concat]. rewrite <- !app_assoc.
      split_and!; try done. by constructor.
Qed.

Lemma outcomes_length n cs : length (outcomes' n cs) = length cs.
Proof.
  revert n. induction cs as [|c cs IH]; intros n; [done|].
  cbn [outcomes length]. by rewrite IH.
Qed.

Lemma successes_failures_length (rs : list (result string)) :
  length (successes rs) + length (failures rs) = length rs.
Proof.
  induction rs as [|[s|e] rs IH]; [done| |]; cbn [successes failures omap length] in *.
  - fold (successes rs). fold (failures rs). simpl. lia.
  - fold (successes rs). fold (failures rs). simpl. lia.
Qed.

(** C1, as amended: the Map-Step keeps the successful summaries only.
    Whenever [summary] is bound when the cell starts, or the first page is
    summarised (or there is no page), the loop over the N pages of a dict
    runs to its end and tries every page once, in page order: the calls made
    are the calls of the [try] suites of the pages, page after page.  Each
    page leaves exactly one log record keyed by its page number: the INFO
    record with its summary when its [try] suite returned one, an ERROR
    record when the suite raised.  [map_summaries] holds the summaries of
    the pages whose suite returned, in page order, each the string the
    provider returned, and nothing for a failed page: N minus the number of
    failed pages entries. *)
Theorem map_step_keeps_successes_only (pages : list (Z * string)) (k : kernel) :
  NoDup pages.*1 ->
  is_Some (summary k) ∨ head_succeeds' (length (calls k)) pages ->
  ∃ k' new reqs,
    cell_map' pages k = (k', Return tt) ∧
    log k' = log k ++ new ∧
    Forall3 record_agrees new pages.*1 (outcomes' (length (calls k)) pages.*2) ∧
    map_summaries k' = Some (successes (outcomes' (length (calls k)) pages.*2)) ∧
    length (successes (outcomes' (length (calls k)) pages.*2))
      + length (failures (outcomes' (length (calls k)) pages.*2)) = length pages ∧
    record_page <$> new = Some <$> pages.*1 ∧
    map_summaries k' = Some (info_summaries new) ∧
    length (info_summaries new) + length (filter is_error new) = length pages ∧
    calls k' = calls k ++ reqs ∧
    reqs = concat (map_calls' <$> pages.*2) ∧
    info_summaries new = successes (responses' (length (calls k)) reqs).
Proof.
  intros Hnd Hstart.
  destruct (cell_map_completes pages k Hstart)
    as (k' & new & Hrun & Hlog & Hpages & Hsum & Hlen).
  destruct (cell_map_provider_strings pages k) as (reqs & Hcalls & Hanswers).
  rewrite Hrun in Hcalls, Hanswers. simpl in Hcalls, Hanswers.
  assert (Hout : ∃ new',
             log k' = log k ++ new' ∧
             Forall3 record_agrees new' pages.*1
               (outcomes' (length (calls k)) pages.*2) ∧
             map_summaries k' =
               Some (successes (outcomes' (length (calls k)) pages.*2)) ∧
             calls k' = calls k ++ concat (map_calls' <$> pages.*2)).
  { assert (Hget := dict_get_NoDup pages Hnd).
    revert Hrun. unfold cell_map. py_unfold. simpl.
    destruct Hstart as [[s0 Hs0]|Hhead].
    - edestruct (for_each_outcomes pages pages.*1 pages.*2
                   (Kernel (Some []) (summary k) (text k) (final_summary k)
                      (output k) (log k) (calls k) (stdout k)) [] s0)
        as (k1 & new1 & Hrun1 & Hlog1 & Hrec1 & Hsum1 & Hcalls1);
        [exact Hget|reflexivity|exact Hs0|].
      rewrite Hrun1. intros [= <-]. by exists new1.
    - destruct pages as [|[p c] rest].
      + simpl. intros [= <-]. exists []. simpl. rewrite !app_nil_r.
        split_and!; try done. constructor.
      + destruct Hhead as [s Hs].
        change (((p, c) :: rest).*1) with (p :: rest.*1) in *.
        change (((p, c) :: rest).*2) with (c :: rest.*2) in *.
        apply Forall2_cons in Hget as [Hc Hget].
        rewrite for_each_cons.
        erewrite map_iteration_cases; [|exact Hc|reflexivity].
        cbn [map_summaries summary text final_summary output log calls stdout
             outcomes].
        rewrite Hs. cbv beta iota.
        edestruct (for_each_outcomes ((p, c) :: rest) rest.*1 rest.*2
                     (Kernel (Some ([] ++ [s])) (Some s) (text k) (final_summary k)
                        (output k) (log k ++ [map_info p s])
                        (calls k ++ map_calls' c) (stdout k)) ([] ++ [s]) s)
          as (k1 & new1 & Hrun1 & Hlog1 & Hrec1 & Hsum1 & Hcalls1);
          [exact Hget|reflexivity|reflexivity|].
        rewrite Hrun1. intros [= <-].
        cbn [calls log] in Hrec1, Hsum1, Hlog1, Hcalls1.
        rewrite length_app in Hrec1, Hsum1.
        exists (map_info p s :: new1). rewrite Hlog1, Hsum1, Hcalls1, <- !app_assoc.
        split_and!; try done. by constructor. }
  destruct Hout as (new' & Hlog' & Hrec & Hsum' & Hcalls').
  assert (reqs = concat (map_calls' <$> pages.*2)) as Hreqs
    by (rewrite Hcalls in Hcalls'; by apply app_inv_head in Hcalls').
  assert (new' = new) as -> by (rewrite Hlog in Hlog'; by apply app_inv_head in Hlog').
  exists k', new, reqs. split_and!; try done.
  - rewrite successes_failures_length, outcomes_length. apply length_fmap.
  - congruence.
Qed.

(** C9: whatever the pages and the kernel the Map-Step cell starts from,
    and whether the loop runs to its end or is aborted, [map_summaries]
    holds exactly the strings the provider returned to the calls of the
    cell, in call order, each unchanged (no truncation to [max_words], no
    other edit); the reduce stage leaves the list as it is and, when it
    binds [output], puts that same list under "map_summaries". *)
Theorem map_summaries_are_provider_answers (pages : list (Z * string)) (k : kernel) :
  let k1 := (cell_map' pages k).1 in
  let k2 := (run_reduce' k1).1 in
  ∃ new,
    calls k1 = calls k ++ new ∧
    map_summaries k1 = Some (successes (responses' (length (calls k)) new)) ∧
    map_summaries k2 = map_summaries k1 ∧
    (output k2 = output k1 ∨
     ∃ f, output k2 =
            Some [("final_summary", VStr f);
                  ("map_summaries",
                   VList (successes (responses' (length (calls k)) new)))]).
Proof.
  intros k1 k2. subst k1 k2.
  destruct (cell_map_provider_strings pages k) as (new & Hcalls & Hsum).
  exists new. split; [exact Hcalls|].
  split; [exact Hsum|].
  rewrite (run_reduce_cases _ _ Hsum).
  destruct (consolidate' _ _) as [f|e]; simpl; rewrite Hsum.
  - split; [done|]. right. by exists f.
  - split; [done|]. by left.
Qed.

(** C10: the handler of the Map-Step reads [summary], not the exception.
    (1) In a kernel where [summary] is not bound, a first page that fails
    makes the handler raise [NameError]: the cell is aborted with that
    exception, nothing is logged, [map_summaries] stays empty and the
    remaining pages are never tried.
    (2) When a page [p] is summarised as [s] and the next page [q] fails,
    with whatever exception [e], the record logged for [q] carries [s], the
    summary of the page before, and the loop goes on. *)
Theorem map_handler_reads_summary :
  (∀ p c rest k e,
      summary k = None ->
      summarize' (length (calls k)) c = Raise e ->
      ∃ k',
        cell_map' ((p, c) :: rest) k = (k', Raise (NameError "summary")) ∧
        map_summaries k' = Some [] ∧
        log k' = log k ∧
        calls k' = calls k ++ map_calls' c) ∧
  (∀ pages p q cp cq rest k ms s e,
      dict_get p pages = Some cp ->
      dict_get q pages = Some cq ->
      map_summaries k = Some ms ->
      summarize' (length (calls k)) cp = Return s ->
      summarize' (S (length (calls k))) cq = Raise e ->
      ∃ k',
        for_each (p :: q :: rest) (map_iteration' pages) k =
          for_each rest (map_iteration' pages) k' ∧
        log k' = log k ++ [map_info p s; map_error q s] ∧
        map_summaries k' = Some (ms ++ [s]) ∧
        summary k' = Some s).
Proof.
  split.
  - intros p c rest k e Hs0 Hfail. unfold cell_map. py_unfold.
    change (((p, c) :: rest).*1) with (p :: rest.*1).
    cbv beta iota. rewrite for_each_cons.
    erewrite map_iteration_cases;
      [|simpl; by rewrite decide_True|reflexivity].
    simpl. rewrite Hfail, Hs0. eexists. split; [reflexivity|]. done.
  - intros pages p q cp cq rest k ms s e Hp Hq Hms Hs Hfail.
    rewrite for_each_cons, (map_iteration_cases _ _ _ _ _ Hp Hms), Hs.
    rewrite for_each_cons.
    erewrite map_iteration_cases; [|exact Hq|reflexivity].
    simpl. rewrite length_app, (summarize_one_call _ _ _ Hs).
    replace (length (calls k) + 1) with (S (length (calls k))) by lia.
    rewrite Hfail. eexists. split; [reflexivity|]. simpl.
    by rewrite <- app_assoc.
Qed.

(** The loop when every page is summarised. *)
Lemma for_each_all_succeed pages keys :
  ∀ cs ss k ms,
    Forall2 (λ p c, dict_get p pages = Some c) keys cs ->
    all_succeed' (length (calls k)) cs ss ->
    map_summaries k = Some ms ->
    ∃ k',
      for_each keys (map_iteration' pages) k = (k', Return tt) ∧
      map_summaries k' = Some (ms ++ ss) ∧
      length (calls k') = length (calls k) + length keys ∧
      log k' = log k ++ zip_with map_info keys ss.
Proof.
  induction keys as [|p keys IH]; intros cs ss k ms Hget Hall Hms.
  - apply Forall2_nil_inv_l in Hget as ->. destruct ss; [|done].
    exists k. simpl. by rewrite !app_nil_r, Nat.add_0_r.
  - apply Forall2_cons_inv_l in Hget as (c & cs' & Hc & Hget & ->).
    destruct ss as [|s ss]; [done|]. destruct Hall as [Hs Hall].
    rewrite for_each_cons, (map_iteration_cases _ _ _ _ _ Hc Hms), Hs.
    edestruct (IH cs' ss
                 (Kernel (Some (ms ++ [s])) (Some s) (text k)
                    (final_summary k) (output k) (log k ++ [map_info p s])
                    (calls k ++ map_calls' c) (stdout k)) (ms ++ [s]))
      as (k' & Hrun & Hsum & Hlen & Hlog); [exact Hget| |reflexivity|].
    { simpl. rewrite length_app, (summarize_one_call _ _ _ Hs).
      by replace (length (calls k) + 1) with (S (length (calls k))) by lia. }
    exists k'. rewrite Hrun, Hsum, Hlen, Hlog. simpl.
    rewrite length_app, (summarize_one_call _ _ _ Hs), <- !app_assoc.
    split_and!; try done. lia.
Qed.

(** C5, as amended: on a fully successful run (the pages of a dict are
    all summarised, giving [ss], and the consolidation call answers [f])
    the notebook completes and binds [output] to a dict of two entries,
    "final_summary" (the reducer's answer) and "map_summaries" (the
    summaries in page order); there is no third entry. *)
Theorem successful_run_output (pages : list (Z * string)) (ss : list string)
    (f : string) (k : kernel) :
  NoDup pages.*1 ->
  all_succeed' (length (calls k)) pages.*2 ss ->
  consolidate' (length (calls k) + length pages) (reduce_input ss) = Return f ->
  ∃ k',
    run_all' pages k = (k', Return tt) ∧
    output k' = Some [("final_summary", VStr f); ("map_summaries", VList ss)] ∧
    length <$> output k' = Some 2 ∧
    map_summaries k' = Some ss ∧
    final_summary k' = Some f.
Proof.
  intros Hnd Hall Hred. unfold run_all, mbind, py_mbind, py_bind.
  unfold cell_map. py_unfold. simpl.
  edestruct (for_each_all_succeed pages pages.*1 pages.*2 ss
               (Kernel (Some []) (summary k) (text k) (final_summary k)
                  (output k) (log k) (calls k) (stdout k)) [])
    as (k1 & Hrun & Hsum & Hlen & _);
    [by apply dict_get_NoDup|exact Hall|reflexivity|].
  rewrite Hrun. simpl in Hsum, Hlen. rewrite length_fmap in Hlen.
  rewrite (run_reduce_cases _ _ Hsum), Hlen, Hred.
  eexists. split; [reflexivity|]. done.
Qed.

(** C2, as amended: with no successful summary the reduce stage raises
    nothing of its own.  It joins the empty list to the empty text, builds
    the consolidation prompt from it and calls the provider exactly once
    with it; the cell completes, and what it binds is the provider's
    answer (when the call raises, the exception is logged and [output] is
    left as it was). *)
Theorem reduce_of_no_summaries (k : kernel) (p : string) :
  map_summaries k = Some [] ->
  build_prompt REDUCE_SUMMARY_PROMPT_TPL
    [("text", VStr ""); ("max_words", VInt REDUCE_MAX_WORDS)] = Return p ->
  ∃ k',
    run_reduce' k = (k', Return tt) ∧
    text k' = Some "" ∧
    calls k' = calls k ++ [reduce_request p] ∧
    match get_chat_response (length (calls k)) (reduce_request p) with
    | Return f =>
        final_summary k' = Some f ∧
        output k' = Some [("final_summary", VStr f); ("map_summaries", VList [])]
    | Raise e =>
        log k' = log k ++ [reduce_error e] ∧ output k' = output k
    end.
Proof.
  intros Hms Hp. rewrite (run_reduce_cases _ _ Hms).
  unfold consolidate, reduce_calls.
  change (reduce_input []) with "". rewrite Hp.
  destruct (get_chat_response _ _) as [f|e];
    (eexists; split; [reflexivity|done]).
Qed.

(** C3, as amended: the text handed to the consolidation prompt is the map
    summaries, in list order, joined by one newline, in which every
    doubled newline is then deleted (replaced by the empty string, not by
    one newline), so that none is left; the provider is called with the
    prompt built from that text.  For the summaries "A" and "B\n\nC" the
    text is "A\nBC". *)
Theorem reduce_input_is_join_without_double_newlines (k : kernel)
    (l : list string) (p : string) :
  map_summaries k = Some l ->
  build_prompt REDUCE_SUMMARY_PROMPT_TPL
    [("text", VStr (replace (nl +:+ nl) "" (join nl l)));
     ("max_words", VInt REDUCE_MAX_WORDS)] = Return p ->
  text (run_reduce' k).1 = Some (replace (nl +:+ nl) "" (join nl l)) ∧
  calls (run_reduce' k).1 = calls k ++ [reduce_request p] ∧
  contains (nl +:+ nl) (replace (nl +:+ nl) "" (join nl l)) = false ∧
  reduce_input ["A"; "B" +:+ nl +:+ nl +:+ "C"] = "A" +:+ nl +:+ "BC".
Proof.
  intros Hms Hp. rewrite (run_reduce_cases _ _ Hms).
  unfold consolidate, reduce_calls, reduce_input in *. rewrite Hp.
  split_and!; [by destruct (get_chat_response _ _)..| |reflexivity].
  apply replace_leaves_no_double_newline.
Qed.

(** C6, as amended: when the consolidation fails, the exception does not
    reach the caller: the [except] clause logs it as an ERROR record and
    the cell completes normally.  [output] is not bound by the cell (it
    keeps whatever it held), [final_summary] is untouched and
    [map_summaries] is unchanged. *)
Theorem reduce_failure_is_logged (k : kernel) (l : list string) (e : exn) :
  map_summaries k = Some l ->
  consolidate' (length (calls k)) (reduce_input l) = Raise e ->
  ∃ k',
    run_reduce' k = (k', Return tt) ∧
    log k' = log k ++ [reduce_error e] ∧
    output k' = output k ∧
    final_summary k' = final_summary k ∧
    map_summaries k' = Some l.
Proof.
  intros Hms Hfail. rewrite (run_reduce_cases _ _ Hms), Hfail.
  eexists. split; [reflexivity|done].
Qed.

(** C8: replaying the reduce stage.  With a provider whose answer depends
    on the request only, the dict the reduce stage binds is a function of
    the map summaries: two runs from kernels that hold the same
    [map_summaries] bind the same dict (or both bind none), and a second
    run in the same kernel leaves [output], [final_summary] and [text] as
    the first run left them.  No run changes [map_summaries]. *)
Theorem reduce_replay_is_deterministic (k k' : kernel) (l : list string) :
  (∀ n m r, get_chat_response n r = get_chat_response m r) ->
  map_summaries k = Some l ->
  map_summaries k' = Some l ->
  let a := (run_reduce' k).1 in
  let b := (run_reduce' k').1 in
  let a2 := (run_reduce' a).1 in
  bundle' (length (calls k)) l = bundle' (length (calls k')) l ∧
  output a = from_option Some (output k) (bundle' (length (calls k)) l) ∧
  output b = from_option Some (output k') (bundle' (length (calls k')) l) ∧
  output a2 = output a ∧
  final_summary a2 = final_summary a ∧
  text a2 = text a ∧
  (run_reduce' a).2 = (run_reduce' k).2 ∧
  map_summaries a = Some l ∧ map_summaries b = Some l ∧ map_summaries a2 = Some l.
Proof.
  intros Hdet Hk Hk' a b a2.
  assert (Hcons : ∀ n m t, consolidate' n t = consolidate' m t).
  { intros n m t. unfold consolidate. destruct (build_prompt _ _); [apply Hdet|done]. }
  assert (Ha : map_summaries a = Some l).
  { subst a. rewrite (run_reduce_cases _ _ Hk). by destruct (consolidate' _ _). }
  subst a2 b. rewrite (run_reduce_cases _ _ Ha), (run_reduce_cases _ _ Hk').
  subst a. rewrite (run_reduce_cases _ _ Hk). unfold bundle.
  rewrite (Hcons (length (calls k')) (length (calls k))).
  destruct (consolidate' (length (calls k)) _) as [f|e] eqn:Hc; simpl;
    rewrite (Hcons _ (length (calls k))), Hc; done.
Qed.


(** * Further properties of the notebook *)

(** ** The Map-Step loop, by invariant *)

Lemma cell_map_unfold pages k :
  cell_map' pages k =
    for_each pages.*1 (map_iteration' pages)
      (Kernel (Some []) (summary k) (text k) (final_summary k) (output k)
         (log k) (calls k) (stdout k)).
Proof. reflexivity. Qed.

Lemma map_iteration_keeps_bound pages page c k ms :
  dict_get page pages = Some c ->
  map_summaries k = Some ms ->
  is_Some (map_summaries (map_iteration' pages page k).1).
Proof.
  intros Hc Hms. rewrite (map_iteration_cases _ _ _ _ _ Hc Hms).
  destruct (summarize' _ _); [by eexists|].
  destruct (summary k); simpl; rewrite Hms; by eexists.
Qed.

(** A property [R n] of the kernel ([n]: a bound on the pages tried) that
    every iteration carries from [n] to [n + 1] holds when the loop stops,
    whether at its end or by an exception. *)
Lemma for_each_rule pages (R : nat -> kernel -> Prop) :
  (∀ n k, R n k -> R (S n) k) ->
  (∀ n k page c ms,
      dict_get page pages = Some c ->
      map_summaries k = Some ms ->
      R n k -> R (S n) (map_iteration' pages page k).1) ->
  ∀ keys n k,
    Forall (λ p, is_Some (dict_get p pages)) keys ->
    is_Some (map_summaries k) ->
    R n k ->
    R (n + length keys) (for_each keys (map_iteration' pages) k).1.
Proof.
  intros Hmono Hstep keys.
  assert (Hadd : ∀ m n k, R n k -> R (n + m) k).
  { induction m as [|m IHm]; intros n k HR.
    - by rewrite Nat.add_0_r.
    - replace (n + S m) with (S (n + m)) by lia. by apply Hmono, IHm. }
  induction keys as [|p keys IH]; intros n k Hkeys [ms Hms] HR.
  - by apply Hadd.
  - apply Forall_cons in Hkeys as [[c Hc] Hkeys].
    assert (HR' := Hstep n k p c ms Hc Hms HR).
    assert (Hb := map_iteration_keeps_bound pages p c k ms Hc Hms).
    rewrite for_each_cons.
    replace (n + length (p :: keys)) with (S n + length keys) by (simpl; lia).
    destruct (map_iteration' pages p k) as [k1 [[]|e]].
    + apply IH; assumption.
    + by apply Hadd.
Qed.

Lemma cell_map_rule pages (R : nat -> kernel -> Prop) k :
  (∀ n k, R n k -> R (S n) k) ->
  (∀ n k page c ms,
      dict_get page pages = Some c ->
      map_summaries k = Some ms ->
      R n k -> R (S n) (map_iteration' pages page k).1) ->
  R 0 (Kernel (Some []) (summary k) (text k) (final_summary k) (output k)
         (log k) (calls k) (stdout k)) ->
  R (length pages) (cell_map' pages k).1.
Proof.
  intros Hmono Hstep H0. rewrite cell_map_unfold, <- (length_fmap fst pages).
  apply (for_each_rule pages R Hmono Hstep pages.*1 0);
    [apply dict_get_keys|by eexists|exact H0].
Qed.

(** X2: while the Map-Step cell runs, [summary] is the summary stored last:
    when the cell stops (at its end or by the exception), [summary] is the
    last element of [map_summaries], and it is what it was before the cell
    when no page was summarised. *)
Theorem map_step_summary_is_last_stored (pages : list (Z * string)) (k : kernel) :
  match map_summaries (cell_map' pages k).1 with
  | Some [] => summary (cell_map' pages k).1 = summary k
  | Some (x :: l) => summary (cell_map' pages k).1 = last (x :: l)
  | None => False
  end.
Proof.
  apply (cell_map_rule pages
           (λ _ k', match map_summaries k' with
                    | Some [] => summary k' = summary k
                    | Some (x :: l) => summary k' = last (x :: l)
                    | None => False
                    end)); [done| |done].
  intros _ k0 page c ms Hc Hms HR.
  rewrite (map_iteration_cases _ _ _ _ _ Hc Hms).
  destruct (summarize' _ _) as [s|e]; simpl.
  - assert (Hlast := last_snoc s ms).
    destruct (ms ++ [s]) eqn:Hl; [by destruct ms|]. by rewrite Hlast.
  - destruct (summary k0); simpl; by rewrite Hms in *.
Qed.

(** X3: an ERROR record of the Map-Step never tells why the page failed: the
    text it carries is a summary, either the one [summary] held before the
    cell or one of those the cell stored in [map_summaries]. *)
Theorem map_step_error_details_are_summaries (pages : list (Z * string)) (k : kernel) :
  ∃ new l,
    log (cell_map' pages k).1 = log k ++ new ∧
    map_summaries (cell_map' pages k).1 = Some l ∧
    Forall (λ r, is_error r = true ->
                 ∃ s, record_text r = Some s ∧ (summary k = Some s ∨ s ∈ l)) new.
Proof.
  enough (∃ new l,
            log (cell_map' pages k).1 = log k ++ new ∧
            map_summaries (cell_map' pages k).1 = Some l ∧
            Forall (λ r, is_error r = true ->
                         ∃ s, record_text r = Some s ∧ (summary k = Some s ∨ s ∈ l)) new ∧
            (summary (cell_map' pages k).1 = summary k ∨
             ∃ s, summary (cell_map' pages k).1 = Some s ∧ s ∈ l))
    as (new & l & ? & ? & ? & _) by (by exists new, l).
  apply (cell_map_rule pages
           (λ _ k', ∃ new l,
              log k' = log k ++ new ∧
              map_summaries k' = Some l ∧
              Forall (λ r, is_error r = true ->
                           ∃ s, record_text r = Some s ∧ (summary k = Some s ∨ s ∈ l)) new ∧
              (summary k' = summary k ∨ ∃ s, summary k' = Some s ∧ s ∈ l)));
    [done| |].
  - intros _ k0 page c ms Hc Hms (new & l & Hlog & Hl & Hall & Hsum).
    rewrite Hms in Hl. injection Hl as <-.
    rewrite (map_iteration_cases _ _ _ _ _ Hc Hms).
    destruct (summarize' _ _) as [s|e]; simpl.
    + exists (new ++ [map_info page s]), (ms ++ [s]).
      rewrite Hlog, <- app_assoc. split_and!; try done.
      * apply Forall_app. split.
        -- eapply Forall_impl; [exact Hall|]. intros r Hr Herr.
           destruct (Hr Herr) as (s' & Hs' & [?|?]); exists s'; split; auto.
           right. apply elem_of_app. by left.
        -- by repeat constructor.
      * right. exists s. split; [done|]. apply elem_of_app. right. by left.
    + destruct (summary k0) as [s0|] eqn:Hs0; simpl.
      * exists (new ++ [map_error page s0]), ms.
        rewrite Hlog, <- app_assoc, ?Hms, ?Hs0. split_and!; try done.
        apply Forall_app. split; [done|]. repeat constructor.
        intros _. exists s0. split; [done|].
        destruct Hsum as [Heq|(s & Hs & Hin)]; [left; congruence|right; congruence].
      * exists new, ms. by rewrite ?Hms, ?Hs0.
  - exists [], []. simpl. rewrite app_nil_r. split_and!; try done. by left.
Qed.

(** X4: the Map-Step cell only rebinds [map_summaries] and [summary]: it
    leaves [text], [final_summary], [output] and what was printed as they
    were, and it only adds to the log and to the calls. *)
Theorem map_step_frame (pages : list (Z * string)) (k : kernel) :
  text (cell_map' pages k).1 = text k ∧
  final_summary (cell_map' pages k).1 = final_summary k ∧
  output (cell_map' pages k).1 = output k ∧
  stdout (cell_map' pages k).1 = stdout k ∧
  (∃ new, log (cell_map' pages k).1 = log k ++ new) ∧
  (∃ reqs, calls (cell_map' pages k).1 = calls k ++ reqs).
Proof.
  apply (cell_map_rule pages
           (λ _ k', text k' = text k ∧ final_summary k' = final_summary k ∧
                    output k' = output k ∧ stdout k' = stdout k ∧
                    (∃ new, log k' = log k ++ new) ∧
                    (∃ reqs, calls k' = calls k ++ reqs))); [done| |].
  - intros _ k0 page c ms Hc Hms (Ht & Hf & Ho & Hp & [new Hlog] & [reqs Hcalls]).
    rewrite (map_iteration_cases _ _ _ _ _ Hc Hms).
    destruct (summarize' _ _) as [s|e]; [|destruct (summary k0)]; simpl;
      rewrite Hlog, Hcalls, <- ?app_assoc; split_and!; eauto.
  - simpl. split_and!; try done; exists []; by rewrite app_nil_r.
Qed.

(** ** The Reduce-Step cell and the whole run *)

Lemma run_all_unfold pages k :
  run_all' pages k =
    match cell_map' pages k with
    | (k1, Return _) => run_reduce' k1
    | (k1, Raise e) => (k1, Raise e)
    end.
Proof. reflexivity. Qed.

Lemma cell_map_binds pages k : is_Some (map_summaries (cell_map' pages k).1).
Proof.
  destruct (cell_map_provider_strings pages k) as (reqs & _ & Hsum). eauto.
Qed.

Lemma map_request_is_map_call p : is_map_call (map_request p).
Proof. done. Qed.

Lemma reduce_calls_spec t :
  (length (reduce_calls' t) ≤ 1)%nat ∧ Forall is_reduce_call (reduce_calls' t).
Proof.
  unfold reduce_calls. destruct (build_prompt _ _); simpl; split; auto.
  by repeat constructor.
Qed.

Lemma cell_map_calls pages k :
  ∃ reqs,
    calls (cell_map' pages k).1 = calls k ++ reqs ∧
    (length reqs ≤ length pages)%nat ∧
    Forall is_map_call reqs.
Proof.
  apply (cell_map_rule pages
           (λ n k', ∃ reqs, calls k' = calls k ++ reqs ∧ (length reqs ≤ n)%nat ∧
                            Forall is_map_call reqs)).
  - intros n k' (reqs & ? & ? & ?). exists reqs. split_and!; auto.
  - intros n k0 page c ms Hc Hms (reqs & Hcalls & Hlen & Hall).
    exists (reqs ++ map_calls' c).
    assert (Hcalls' : calls (map_iteration' pages page k0).1
                      = calls k0 ++ map_calls' c).
    { rewrite (map_iteration_cases _ _ _ _ _ Hc Hms).
      destruct (summarize' _ _); [done|]. by destruct (summary k0). }
    rewrite Hcalls', Hcalls, <- app_assoc, length_app. split; [done|].
    unfold map_calls. destruct (build_prompt _ _); simpl.
    + split; [lia|]. apply Forall_app. split; [done|].
      repeat constructor.
    + rewrite app_nil_r. split; [lia|done].
  - exists []. simpl. by rewrite app_nil_r.
Qed.

(** X8: the provider calls of a run of the whole notebook over N pages are
    at most N calls of the Map-Step (one per page at most, never a retry),
    each with the system message and the map model and without a token
    limit, followed by at most one call of the Reduce-Step, with the system
    message, the reduce model and 1024 tokens: at most N + 1 calls in
    all. *)
Theorem notebook_run_calls (pages : list (Z * string)) (k : kernel) :
  ∃ reqs red,
    calls (run_all' pages k).1 = calls k ++ reqs ++ red ∧
    (length reqs ≤ length pages)%nat ∧
    Forall is_map_call reqs ∧
    (length red ≤ 1)%nat ∧
    Forall is_reduce_call red.
Proof.
  rewrite run_all_unfold.
  destruct (cell_map_calls pages k) as (reqs & Hcalls & Hlen & Hall).
  destruct (cell_map_binds pages k) as [l Hl].
  destruct (cell_map' pages k) as [k1 [[]|e]]; simpl in *.
  - exists reqs, (reduce_calls' (reduce_input l)).
    destruct (reduce_calls_spec (reduce_input l)) as [Hred1 Hred2].
    rewrite (run_reduce_cases _ _ Hl).
    destruct (consolidate' _ _); simpl; rewrite Hcalls, <- app_assoc; done.
  - exists reqs, []. rewrite app_nil_r. split_and!; auto.
Qed.
End NotebookProperties.

(** * The cells, with the classes of the exceptions *)

Section ByClassProperties.

Variable is_exception : exn -> bool.
Variable SUMMARY_PROMPT_TPL : string.
Variable REDUCE_SUMMARY_PROMPT_TPL : string.
Variable build_prompt : string -> list (string * pyvalue) -> result string.
Variable get_chat_response : nat -> request -> result string.
Variable extract_pages_text : string -> Z -> Z -> result (list (Z * string)).

Local Abbreviation map_iteration_c :=
  (ByClass.map_iteration is_exception SUMMARY_PROMPT_TPL build_prompt
     get_chat_response).
Local Abbreviation cell_map_c :=
  (ByClass.cell_map is_exception SUMMARY_PROMPT_TPL build_prompt get_chat_response).
Local Abbreviation cell_reduce_c :=
  (ByClass.cell_reduce is_exception REDUCE_SUMMARY_PROMPT_TPL build_prompt
     get_chat_response).
Local Abbreviation run_reduce_c :=
  (ByClass.run_reduce is_exception REDUCE_SUMMARY_PROMPT_TPL build_prompt
     get_chat_response).
Local Abbreviation run_all_c :=
  (ByClass.run_all is_exception SUMMARY_PROMPT_TPL REDUCE_SUMMARY_PROMPT_TPL
     build_prompt get_chat_response).
Local Abbreviation notebook_c :=
  (ByClass.notebook is_exception SUMMARY_PROMPT_TPL REDUCE_SUMMARY_PROMPT_TPL
     build_prompt get_chat_response extract_pages_text).
Local Abbreviation summarize_c :=
  (summarize SUMMARY_PROMPT_TPL build_prompt get_chat_response).
Local Abbreviation map_calls_c := (map_calls SUMMARY_PROMPT_TPL build_prompt).
Local Abbreviation outcomes_c :=
  (outcomes SUMMARY_PROMPT_TPL build_prompt get_chat_response).
Local Abbreviation consolidate_c :=
  (consolidate REDUCE_SUMMARY_PROMPT_TPL build_prompt get_chat_response).
Local Abbreviation reduce_calls_c :=
  (reduce_calls REDUCE_SUMMARY_PROMPT_TPL build_prompt).
Local Abbreviation caught_c := (ByClass.caught is_exception).

Ltac by_class_unfold :=
  unfold ByClass.try_except, ByClass.try_except_else, append_map_summaries,
    mbind, py_mbind, py_bind, mret, py_mret, py_ret, subscript, lift, chat,
    load, store_map_summaries, store_summary, store_text, store_final_summary,
    store_output, logging, print in *.

(** ** One iteration of the Map-Step loop *)

Lemma map_iteration_by_class pages page c k ms :
  dict_get page pages = Some c ->
  map_summaries k = Some ms ->
  map_iteration_c pages page k =
    match summarize_c (length (calls k)) c with
    | Return s =>
        (Kernel (Some (ms ++ [s])) (Some s) (text k) (final_summary k) (output k)
           (log k ++ [map_info page s]) (calls k ++ map_calls_c c) (stdout k),
         Return tt)
    | Raise e =>
        if is_exception e then
          match summary k with
          | Some s0 =>
              (Kernel (map_summaries k) (summary k) (text k) (final_summary k)
                 (output k) (log k ++ [map_error page s0])
                 (calls k ++ map_calls_c c) (stdout k), Return tt)
          | None =>
              (Kernel (map_summaries k) (summary k) (text k) (final_summary k)
                 (output k) (log k) (calls k ++ map_calls_c c) (stdout k),
               Raise (NameError "summary"))
          end
        else
          (Kernel (map_summaries k) (summary k) (text k) (final_summary k)
             (output k) (log k) (calls k ++ map_calls_c c) (stdout k), Raise e)
    end.
Proof.
  intros Hget Hms. unfold summarize, map_calls, ByClass.map_iteration.
  by_class_unfold. rewrite Hget.
  destruct (build_prompt _ _) as [p|e]; simpl.
  - unfold map_request. destruct (get_chat_response _ _) as [s|e]; simpl.
    + rewrite Hms. reflexivity.
    + destruct (is_exception e); [|reflexivity].
      destruct (summary k); reflexivity.
  - rewrite app_nil_r. destruct k as [a b c0 d e0 f g h]; simpl.
    destruct (is_exception e); [|reflexivity]. destruct b; reflexivity.
Qed.

(** ** The Map-Step loop *)

(** The three ends of the loop from a kernel in which [map_summaries] is
    bound, told apart by the outcomes of the [try] suites. *)
Lemma for_each_by_class pages keys :
  ∀ cs k ms,
    Forall2 (λ p c, dict_get p pages = Some c) keys cs ->
    map_summaries k = Some ms ->
    ∃ k' r,
      for_each keys (map_iteration_c pages) k = (k', r) ∧
      (text k' = text k ∧ final_summary k' = final_summary k ∧
       output k' = output k ∧ stdout k' = stdout k) ∧
      ((r = Return tt ∧
        Forall (λ o, caught_c o = true) (outcomes_c (length (calls k)) cs) ∧
        (is_Some (summary k) ∨
         ∀ e, head (outcomes_c (length (calls k)) cs) ≠ Some (Raise e)) ∧
        is_Some (map_summaries k')) ∨
       (r = Raise (NameError "summary") ∧
        summary k = None ∧
        (∃ e, head (outcomes_c (length (calls k)) cs) = Some (Raise e) ∧
              is_exception e = true) ∧
        map_summaries k' = map_summaries k ∧ log k' = log k) ∨
       (∃ e pre post,
          r = Raise e ∧ is_exception e = false ∧
          outcomes_c (length (calls k)) cs = pre ++ Raise e :: post ∧
          Forall (λ o, caught_c o = true) pre ∧
          (is_Some (summary k) ∨ ∀ e', head pre ≠ Some (Raise e')))).
Proof.
  induction keys as [|p keys IH]; intros cs k ms Hget Hms.
  - apply Forall2_nil_inv_l in Hget as ->. exists k, (Return tt).
    split; [done|]. split; [done|]. left. cbn [outcomes]. split_and!; eauto.
  - apply Forall2_cons_inv_l in Hget as (c & cs' & Hc & Hget & ->).
    rewrite for_each_cons, (map_iteration_by_class _ _ _ _ _ Hc Hms).
    cbn [outcomes].
    destruct (summarize_c (length (calls k)) c) as [s|e] eqn:Hs.
    + edestruct (IH cs'
                   (Kernel (Some (ms ++ [s])) (Some s) (text k)
                      (final_summary k) (output k) (log k ++ [map_info p s])
                      (calls k ++ map_calls_c c) (stdout k)) (ms ++ [s]))
        as (k' & r & Hrun & Hframe & Hcases); [exact Hget|reflexivity|].
      cbn [map_summaries summary text final_summary output log calls stdout]
        in Hcases, Hframe.
      rewrite length_app in Hcases.
      exists k', r. split; [exact Hrun|]. split; [exact Hframe|].
      destruct Hcases as [(-> & Hall & _ & Hb)|[(_ & [=] & _)|
        (e & pre & post & -> & He & Hrs & Hpre & _)]].
      * left. split_and!; [done|by constructor|by right|done].
      * right. right. exists e, (Return s :: pre), post. rewrite Hrs.
        split_and!; [done|done|done|by constructor|by right].
    + destruct (is_exception e) eqn:He.
      * destruct (summary k) as [s0|] eqn:Hs0.
        -- edestruct (IH cs'
                        (Kernel (map_summaries k) (Some s0) (text k)
                           (final_summary k) (output k)
                           (log k ++ [map_error p s0])
                           (calls k ++ map_calls_c c) (stdout k)) ms)
             as (k' & r & Hrun & Hframe & Hcases); [exact Hget|exact Hms|].
           cbn [map_summaries summary text final_summary output log calls stdout]
             in Hcases, Hframe.
           rewrite length_app in Hcases.
           exists k', r. split; [exact Hrun|]. split; [exact Hframe|].
           destruct Hcases as [(-> & Hall & _ & Hb)|[(_ & [=] & _)|
             (e' & pre & post & -> & He' & Hrs & Hpre & _)]].
           ++ left. split_and!; [done|by constructor|left; eauto|done].
           ++ right. right. exists e', (Raise e :: pre), post. rewrite Hrs.
              split_and!; [done|done|done|by constructor|left; eauto].
        -- eexists _, _. split; [reflexivity|].
           cbn [map_summaries summary text final_summary output log calls stdout].
           split; [done|]. right. left. split_and!; try done. by exists e.
      * eexists _, _. split; [reflexivity|].
        cbn [map_summaries summary text final_summary output log calls stdout].
        split; [done|]. right. right.
        exists e, [], (outcomes_c (length (calls k) + length (map_calls_c c)) cs').
        split_and!; try done. by right.
Qed.

Lemma cell_map_by_class_unfold pages k :
  cell_map_c pages k =
    for_each pages.*1 (map_iteration_c pages)
      (Kernel (Some []) (summary k) (text k) (final_summary k) (output k)
         (log k) (calls k) (stdout k)).
Proof. reflexivity. Qed.

Lemma cell_map_by_class pages k :
  NoDup pages.*1 ->
  ∃ k' r,
    cell_map_c pages k = (k', r) ∧
    (text k' = text k ∧ final_summary k' = final_summary k ∧
     output k' = output k ∧ stdout k' = stdout k) ∧
    ((r = Return tt ∧
      Forall (λ o, caught_c o = true) (outcomes_c (length (calls k)) pages.*2) ∧
      (is_Some (summary k) ∨
       ∀ e, head (outcomes_c (length (calls k)) pages.*2) ≠ Some (Raise e)) ∧
      is_Some (map_summaries k')) ∨
     (r = Raise (NameError "summary") ∧
      summary k = None ∧
      (∃ e, head (outcomes_c (length (calls k)) pages.*2) = Some (Raise e) ∧
            is_exception e = true) ∧
      map_summaries k' = Some [] ∧ log k' = log k) ∨
     (∃ e pre post,
        r = Raise e ∧ is_exception e = false ∧
        outcomes_c (length (calls k)) pages.*2 = pre ++ Raise e :: post ∧
        Forall (λ o, caught_c o = true) pre ∧
        (is_Some (summary k) ∨ ∀ e', head pre ≠ Some (Raise e')))).
Proof.
  intros Hnd. rewrite cell_map_by_class_unfold.
  destruct (for_each_by_class pages pages.*1 pages.*2
              (Kernel (Some []) (summary k) (text k) (final_summary k)
                 (output k) (log k) (calls k) (stdout k)) []
              (dict_get_NoDup pages Hnd) eq_refl)
    as (k' & r & Hrun & Hframe & Hcases).
  exists k', r. split; [exact Hrun|]. split; [exact Hframe|]. exact Hcases.
Qed.

(** X1: the ends of the Map-Step cell over the pages of a dict, told apart
    by what the [try] suites of the pages evaluate to.  The cell runs to its
    end when every exception the suites raise is an instance of [Exception]
    and [summary] is bound at the start or the first page does not fail.  It
    raises [NameError] for [summary] when [summary] is not bound and the
    suite of the first page raises an instance of [Exception]: the handler
    reads [summary].  Otherwise an exception that is not an instance of
    [Exception] ([KeyboardInterrupt], [SystemExit]) leaves the cell: the
    first such exception a suite raises, the pages before it handled.  No
    instance of [Exception] that the prompt builder or the provider raises
    leaves the cell. *)
Theorem map_step_ends_by_class (pages : list (Z * string)) (k : kernel) :
  NoDup pages.*1 ->
  ∃ k' r,
    ByClass.cell_map is_exception SUMMARY_PROMPT_TPL build_prompt
      get_chat_response pages k = (k', r) ∧
    ((r = Return tt ∧
      Forall (λ o, caught_c o = true) (outcomes_c (length (calls k)) pages.*2) ∧
      (is_Some (summary k) ∨
       ∀ e, head (outcomes_c (length (calls k)) pages.*2) ≠ Some (Raise e))) ∨
     (r = Raise (NameError "summary") ∧
      summary k = None ∧
      ∃ e, head (outcomes_c (length (calls k)) pages.*2) = Some (Raise e) ∧
           is_exception e = true) ∨
     (∃ e pre post,
        r = Raise e ∧ is_exception e = false ∧
        outcomes_c (length (calls k)) pages.*2 = pre ++ Raise e :: post ∧
        Forall (λ o, caught_c o = true) pre ∧
        (is_Some (summary k) ∨ ∀ e', head pre ≠ Some (Raise e')))).
Proof.
  intros Hnd.
  destruct (cell_map_by_class pages k Hnd) as (k' & r & Hrun & _ & Hcases).
  exists k', r. split; [exact Hrun|].
  destruct Hcases as [(? & ? & ? & _)|[(? & ? & ? & _)|
    (e & pre & post & ? & ? & ? & ? & ?)]].
  - by left.
  - right. by left.
  - right. right. by exists e, pre, post.
Qed.

(** ** The Reduce-Step cell *)

Lemma cell_reduce_by_class k :
  cell_reduce_c k =
    match text k with
    | None =>
        if is_exception (NameError "text") then
          (Kernel (map_summaries k) (summary k) (text k) (final_summary k)
             (output k) (log k ++ [reduce_error (NameError "text")]) (calls k)
             (stdout k), Return tt)
        else (k, Raise (NameError "text"))
    | Some t =>
        match consolidate_c (length (calls k)) t with
        | Raise e =>
            if is_exception e then
              (Kernel (map_summaries k) (summary k) (text k) (final_summary k)
                 (output k) (log k ++ [reduce_error e])
                 (calls k ++ reduce_calls_c t) (stdout k), Return tt)
            else
              (Kernel (map_summaries k) (summary k) (text k) (final_summary k)
                 (output k) (log k) (calls k ++ reduce_calls_c t) (stdout k),
               Raise e)
        | Return f =>
            match map_summaries k with
            | Some l =>
                (Kernel (map_summaries k) (summary k) (text k) (Some f)
                   (Some [("final_summary", VStr f); ("map_summaries", VList l)])
                   (log k ++ [reduce_info f]) (calls k ++ reduce_calls_c t)
                   (stdout k), Return tt)
            | None =>
                (Kernel (map_summaries k) (summary k) (text k) (Some f)
                   (output k) (log k ++ [reduce_info f])
                   (calls k ++ reduce_calls_c t) (stdout k),
                 Raise (NameError "map_summaries"))
            end
        end
    end.
Proof.
  unfold ByClass.cell_reduce, consolidate, reduce_calls. by_class_unfold.
  destruct (text k) as [t|] eqn:Ht; simpl.
  - destruct (build_prompt _ _) as [p|e]; simpl.
    + unfold reduce_request.
      destruct (get_chat_response _ _) as [f|e]; simpl.
      * destruct (map_summaries k) eqn:Hl; simpl; by rewrite ?Ht, ?Hl.
      * destruct (is_exception e); by rewrite ?Ht.
    + rewrite app_nil_r. destruct (is_exception e); [by rewrite Ht|].
      destruct k; simpl in *. by rewrite Ht.
  - destruct (is_exception _); by rewrite ?Ht.
Qed.

(** X5: the Reduce-Step cell, run on its own, case by case.  [NameError] is
    an instance of [Exception], so with [text] not bound the cell logs the
    error and completes, the provider not called.  With [text] bound: when
    the [try] suite raises an instance of [Exception], the cell logs it and
    completes; when it raises another exception, that exception leaves the
    cell, nothing logged and [final_summary] and [output] as they were; when
    the consolidation succeeds, the answer is bound to [final_summary] and
    logged, and the [else] suite binds [output], or raises [NameError] when
    [map_summaries] is not bound: the [else] suite is not protected by the
    [except] clause. *)
Theorem reduce_cell_ends_by_class (k : kernel) :
  is_exception (NameError "text") = true ->
  ∃ k' r,
    ByClass.cell_reduce is_exception REDUCE_SUMMARY_PROMPT_TPL build_prompt
      get_chat_response k = (k', r) ∧
    ((text k = None ∧ r = Return tt ∧ calls k' = calls k ∧
      log k' = log k ++ [reduce_error (NameError "text")] ∧
      final_summary k' = final_summary k ∧ output k' = output k) ∨
     (∃ t e,
        text k = Some t ∧ consolidate_c (length (calls k)) t = Raise e ∧
        is_exception e = true ∧ r = Return tt ∧
        log k' = log k ++ [reduce_error e] ∧
        final_summary k' = final_summary k ∧ output k' = output k) ∨
     (∃ t e,
        text k = Some t ∧ consolidate_c (length (calls k)) t = Raise e ∧
        is_exception e = false ∧ r = Raise e ∧
        log k' = log k ∧
        final_summary k' = final_summary k ∧ output k' = output k) ∨
     (∃ t f l,
        text k = Some t ∧ consolidate_c (length (calls k)) t = Return f ∧
        map_summaries k = Some l ∧ r = Return tt ∧
        log k' = log k ++ [reduce_info f] ∧
        final_summary k' = Some f ∧
        output k' = Some [("final_summary", VStr f); ("map_summaries", VList l)]) ∨
     (∃ t f,
        text k = Some t ∧ consolidate_c (length (calls k)) t = Return f ∧
        map_summaries k = None ∧ r = Raise (NameError "map_summaries") ∧
        log k' = log k ++ [reduce_info f] ∧
        final_summary k' = Some f ∧ output k' = output k)).
Proof.
  intros Hname. rewrite cell_reduce_by_class, Hname.
  destruct (text k) as [t|] eqn:Ht.
  - destruct (consolidate_c _ t) as [f|e] eqn:Hc.
    + destruct (map_summaries k) as [l|] eqn:Hl; eexists _, _;
        (split; [reflexivity|]).
      * do 3 right. left. by exists t, f, l.
      * do 4 right. by exists t, f.
    + destruct (is_exception e) eqn:He; eexists _, _; (split; [reflexivity|]).
      * right. left. by exists t, e.
      * do 2 right. left. by exists t, e.
  - eexists _, _. split; [reflexivity|]. by left.
Qed.

(** ** The reduce stage and the whole run *)

Lemma run_reduce_by_class k ms :
  map_summaries k = Some ms ->
  run_reduce_c k =
    match consolidate_c (length (calls k)) (reduce_input ms) with
    | Return f =>
        (Kernel (Some ms) (summary k) (Some (reduce_input ms)) (Some f)
           (Some [("final_summary", VStr f); ("map_summaries", VList ms)])
           (log k ++ [reduce_info f])
           (calls k ++ reduce_calls_c (reduce_input ms))
           (stdout k ++ [reduce_input ms]), Return tt)
    | Raise e =>
        if is_exception e then
          (Kernel (Some ms) (summary k) (Some (reduce_input ms)) (final_summary k)
             (output k) (log k ++ [reduce_error e])
             (calls k ++ reduce_calls_c (reduce_input ms))
             (stdout k ++ [reduce_input ms]), Return tt)
        else
          (Kernel (Some ms) (summary k) (Some (reduce_input ms)) (final_summary k)
             (output k) (log k)
             (calls k ++ reduce_calls_c (reduce_input ms))
             (stdout k ++ [reduce_input ms]), Raise e)
    end.
Proof.
  intros Hms. unfold ByClass.run_reduce, cell_join, ByClass.cell_reduce,
    consolidate, reduce_calls.
  by_class_unfold. rewrite Hms. simpl. fold (reduce_input ms).
  destruct (build_prompt _ _) as [p|e]; simpl.
  - unfold reduce_request.
    destruct (get_chat_response _ _) as [f|e]; simpl; rewrite ?Hms;
      [reflexivity|]. by destruct (is_exception e).
  - rewrite app_nil_r, Hms. by destruct (is_exception e).
Qed.

(** X6: the reduce stage (join cell, then Reduce-Step cell).  With
    [map_summaries] not bound it raises [NameError] for it and leaves the
    kernel as it was.  With [map_summaries] bound it prints the joined text
    and either completes, or the consolidation raises an exception that is
    not an instance of [Exception] and that exception leaves the stage,
    nothing logged and [final_summary] and [output] as they were.  No
    instance of [Exception] that the prompt builder or the provider raises
    leaves the stage. *)
Theorem reduce_stage_ends_by_class (k : kernel) :
  match map_summaries k with
  | None =>
      ByClass.run_reduce is_exception REDUCE_SUMMARY_PROMPT_TPL build_prompt
        get_chat_response k = (k, Raise (NameError "map_summaries"))
  | Some l =>
      ∃ k' r,
        ByClass.run_reduce is_exception REDUCE_SUMMARY_PROMPT_TPL build_prompt
          get_chat_response k = (k', r) ∧
        text k' = Some (reduce_input l) ∧
        stdout k' = stdout k ++ [reduce_input l] ∧
        ((r = Return tt ∧
          ∀ e, consolidate_c (length (calls k)) (reduce_input l) = Raise e ->
               is_exception e = true) ∨
         (∃ e, r = Raise e ∧
               consolidate_c (length (calls k)) (reduce_input l) = Raise e ∧
               is_exception e = false ∧
               log k' = log k ∧ final_summary k' = final_summary k ∧
               output k' = output k))
  end.
Proof.
  destruct (map_summaries k) as [l|] eqn:Hl.
  - rewrite (run_reduce_by_class _ _ Hl).
    destruct (consolidate_c _ _) as [f|e] eqn:Hc.
    + eexists _, _. split; [reflexivity|]. split_and!; try done. by left.
    + destruct (is_exception e) eqn:He; eexists _, _; (split; [reflexivity|]);
        (split_and!; try done).
      * left. split; [done|]. by intros e' [= <-].
      * right. by exists e.
  - unfold ByClass.run_reduce, cell_join. by_class_unfold. by rewrite Hl.
Qed.

Lemma run_all_by_class_unfold pages k :
  run_all_c pages k =
    match cell_map_c pages k with
    | (k1, Return _) => run_reduce_c k1
    | (k1, Raise e) => (k1, Raise e)
    end.
Proof. reflexivity. Qed.

(** An element of the outcomes of the pages is the outcome of one page. *)
Lemma outcomes_elem_of n cs o :
  o ∈ outcomes_c n cs -> ∃ m c, c ∈ cs ∧ o = summarize_c m c.
Proof.
  revert n. induction cs as [|c cs IH]; intros n; cbn [outcomes].
  - by intros ?%elem_of_nil.
  - intros [->|Hin]%elem_of_cons.
    + exists n, c. split; [left|done].
    + destruct (IH _ Hin) as (m & c' & Hc' & ->). exists m, c'.
      split; [by right|done].
Qed.

Lemma run_all_by_class pages k :
  NoDup pages.*1 ->
  ∃ k' r,
    run_all_c pages k = (k', r) ∧
    (r = Return tt ∨
     (r = Raise (NameError "summary") ∧ summary k = None ∧
      (∃ e, head (outcomes_c (length (calls k)) pages.*2) = Some (Raise e) ∧
            is_exception e = true) ∧
      text k' = text k ∧ final_summary k' = final_summary k ∧
      output k' = output k ∧ log k' = log k ∧ stdout k' = stdout k) ∨
     (∃ e, r = Raise e ∧ is_exception e = false ∧
           final_summary k' = final_summary k ∧ output k' = output k ∧
           ((∃ n c, c ∈ pages.*2 ∧ summarize_c n c = Raise e) ∨
            (∃ n t, consolidate_c n t = Raise e)))).
Proof.
  intros Hnd. rewrite run_all_by_class_unfold.
  destruct (cell_map_by_class pages k Hnd)
    as (k1 & r1 & -> & (Ht & Hf & Ho & Hso) & Hcases).
  destruct Hcases as [(-> & _ & _ & [l Hl])|[(-> & Hs & He & _ & Hlog)|
    (e & pre & post & -> & He & Hrs & _)]].
  - rewrite (run_reduce_by_class _ _ Hl).
    destruct (consolidate_c _ _) as [f|e] eqn:Hc;
      [eexists _, _; split; [reflexivity|by left]|].
    destruct (is_exception e) eqn:He;
      [eexists _, _; split; [reflexivity|by left]|].
    eexists _, _. split; [reflexivity|]. right. right. exists e.
    cbn [final_summary output]. split_and!; [done|done|done|done|].
    right. eauto.
  - exists k1, (Raise (NameError "summary")). split; [done|]. right. left.
    by split_and!.
  - exists k1, (Raise e). split; [done|]. right. right. exists e.
    split_and!; try done. left.
    destruct (outcomes_elem_of (length (calls k)) pages.*2 (Raise e))
      as (m & c & Hc & Heq).
    { rewrite Hrs. apply elem_of_app. right. left. }
    exists m, c. by split.
Qed.

(** X7: a run of the Map-Reduce notebook from its first code cell on, over
    an extractor that returns a dict, has four possible ends.  It
    completes; or the PDF extractor raises, and that exception reaches the
    caller before anything is printed, logged or asked of the provider; or
    [summary] was not bound and the suite of the first page raised an
    instance of [Exception], and [NameError] reaches the caller with the
    reduce stage not run; or the prompt builder or the provider raised an
    exception that is not an instance of [Exception], and that exception
    reaches the caller, [final_summary] and [output] as they were.  No
    instance of [Exception] that the prompt builder or the provider raises
    reaches the caller. *)
Theorem notebook_ends_by_class (k : kernel) :
  (∀ pages, extract_pages_text PDF_URL START END = Return pages ->
            NoDup pages.*1) ->
  ∃ k' r,
    ByClass.notebook is_exception SUMMARY_PROMPT_TPL REDUCE_SUMMARY_PROMPT_TPL
      build_prompt get_chat_response extract_pages_text k = (k', r) ∧
    (r = Return tt ∨
     (∃ e, extract_pages_text PDF_URL START END = Raise e ∧
           r = Raise e ∧ k' = k) ∨
     (r = Raise (NameError "summary") ∧ summary k = None ∧
      text k' = text k ∧ final_summary k' = final_summary k ∧
      output k' = output k ∧ log k' = log k) ∨
     (∃ e, r = Raise e ∧ is_exception e = false ∧
           final_summary k' = final_summary k ∧ output k' = output k ∧
           ((∃ n c, summarize_c n c = Raise e) ∨
            (∃ n t, consolidate_c n t = Raise e)))).
Proof.
  intros Hdict.
  unfold ByClass.notebook, cell_load, mbind, py_mbind, py_bind, mret, py_mret,
    py_ret, lift, print.
  destruct (extract_pages_text _ _ _) as [pages|e] eqn:Hx.
  - cbn beta iota.
    match goal with
    | |- context [ByClass.run_all _ _ _ _ _ pages ?k0] =>
        destruct (run_all_by_class pages k0 (Hdict pages eq_refl))
          as (k' & r & Hrun & Hcases)
    end.
    exists k', r. split; [exact Hrun|].
    cbn [map_summaries summary text final_summary output log calls stdout]
      in Hcases.
    destruct Hcases as [->|[(-> & ? & _ & ? & ? & ? & ? & _)|
      (e & -> & ? & ? & ? & Hby)]].
    + by left.
    + right. right. left. by split_and!.
    + right. right. right. exists e. split_and!; try done.
      destruct Hby as [(n & c & _ & ?)|?]; [left; eauto|by right].
  - exists k, (Raise e). split; [done|]. right. left. by exists e.
Qed.

(** When every exception is an instance of [Exception], the cells are the
    cells of the first model. *)
Lemma for_each_ext {A} (f g : A -> py unit) items :
  (∀ x k, f x k = g x k) -> ∀ k, for_each items f k = for_each items g k.
Proof.
  intros Hfg. induction items as [|x items IH]; intros k; [done|].
  rewrite !for_each_cons, Hfg. destruct (g x k) as [k' [[]|e]]; [apply IH|done].
Qed.

Lemma cells_by_class_agree pages k :
  (∀ e, is_exception e = true) ->
  cell_map_c pages k =
    cell_map SUMMARY_PROMPT_TPL build_prompt get_chat_response pages k ∧
  cell_reduce_c k =
    cell_reduce REDUCE_SUMMARY_PROMPT_TPL build_prompt get_chat_response k ∧
  run_all_c pages k =
    run_all SUMMARY_PROMPT_TPL REDUCE_SUMMARY_PROMPT_TPL build_prompt
      get_chat_response pages k.
Proof.
  intros Hall.
  assert (Hit : ∀ page k0,
             map_iteration_c pages page k0 =
             map_iteration SUMMARY_PROMPT_TPL build_prompt get_chat_response
               pages page k0).
  { intros page k0. unfold ByClass.map_iteration, map_iteration,
      ByClass.try_except, try_except.
    match goal with |- match ?b with _ => _ end = _ => destruct b as [k1 [a|e]] end;
      [done|by rewrite Hall]. }
  assert (Hmap : ∀ k0,
             cell_map_c pages k0 =
             cell_map SUMMARY_PROMPT_TPL build_prompt get_chat_response pages k0).
  { intros k0. unfold ByClass.cell_map, cell_map, mbind, py_mbind, py_bind.
    destruct (store_map_summaries [] k0) as [k1 [[]|e]]; [|done].
    by apply for_each_ext. }
  assert (Hred : ∀ k0,
             cell_reduce_c k0 =
             cell_reduce REDUCE_SUMMARY_PROMPT_TPL build_prompt
               get_chat_response k0).
  { intros k0. unfold ByClass.cell_reduce, cell_reduce,
      ByClass.try_except_else, try_except_else.
    match goal with |- match ?b with _ => _ end = _ => destruct b as [k1 [a|e]] end;
      [done|by rewrite Hall]. }
  split; [apply Hmap|]. split; [apply Hred|].
  unfold ByClass.run_all, run_all, ByClass.run_reduce, run_reduce, mbind,
    py_mbind, py_bind.
  rewrite Hmap. destruct (cell_map _ _ _ _ _) as [k1 [[]|e]]; [|done].
  destruct (cell_join k1) as [k2 [[]|e]]; [apply Hred|done].
Qed.

End ByClassProperties.

(** * The join cell *)

Lemma cell_join_text k l :
  map_summaries k = Some l ->
  text (cell_join k).1 = Some (replace (nl +:+ nl) "" (join nl l)).
Proof.
  intros Hms. unfold cell_join, mbind, py_mbind, py_bind, load, store_text, print.
  by rewrite Hms.
Qed.

(** C4: the join cell makes one pass of [replace] over the joined
    summaries, with the two-character text "\n\n" as the text to find and
    the empty text as its replacement.  A text without a doubled newline is
    returned as it is; the leftmost doubled newline is deleted and the scan
    resumes behind it; no character other than a newline is removed or
    added, so that other white space, and a single newline, stay.  Three
    newlines in a row leave one. *)
Theorem double_newlines_deleted_in_one_pass (k : kernel) (l : list string) :
  map_summaries k = Some l ->
  text (cell_join k).1 = Some (replace (nl +:+ nl) "" (join nl l)) ∧
  (∀ s, contains (nl +:+ nl) s = false -> replace (nl +:+ nl) "" s = s) ∧
  (∀ pre post,
      contains (nl +:+ nl) (pre +:+ nl) = false ->
      replace (nl +:+ nl) "" (pre +:+ nl +:+ nl +:+ post) =
        pre +:+ replace (nl +:+ nl) "" post) ∧
  (∀ s, without "010" (replace (nl +:+ nl) "" s) = without "010" s) ∧
  replace (nl +:+ nl) "" ("a" +:+ nl +:+ nl +:+ nl +:+ "b") = "a" +:+ nl +:+ "b" ∧
  replace (nl +:+ nl) "" ("a  " +:+ nl +:+ " " +:+ nl +:+ "b") =
    "a  " +:+ nl +:+ " " +:+ nl +:+ "b".
Proof.
  intros Hms. split_and!.
  - by apply cell_join_text.
  - apply replace_no_occurrence.
  - apply replace_leftmost.
  - apply replace_keeps_other_characters.
  - reflexivity.
  - reflexivity.
Qed.

Lemma double_newlines_deleted_in_one_pass_witness :
  map_summaries (kernel_with ["A"; "B" +:+ nl +:+ nl +:+ "C"])
    = Some ["A"; "B" +:+ nl +:+ nl +:+ "C"] ∧
  text (cell_join (kernel_with ["A"; "B" +:+ nl +:+ nl +:+ "C"])).1
    = Some ("A" +:+ nl +:+ "BC").
Proof.
  split; [reflexivity|].
  destruct (double_newlines_deleted_in_one_pass
              (kernel_with ["A"; "B" +:+ nl +:+ nl +:+ "C"])
              ["A"; "B" +:+ nl +:+ nl +:+ "C"] eq_refl) as [Htext _].
  exact Htext.
Defined.

(** * Concrete runs *)

(** The run of the specification's scenario: three pages, all summarised. *)
Example demo_run_all_pages_summarised :
  output (demo_run [] demo_pages).1 =
    Some [("final_summary", VStr "FINAL"); ("map_summaries", VList ["S1"; "S2"; "S3"])] ∧
  (demo_run [] demo_pages).2 = Return tt.
Proof. by vm_compute. Qed.

(** The second page fails: its record carries the first page's summary. *)
Example demo_run_second_page_fails :
  log (demo_map [1%nat] demo_pages).1 =
    [map_info 1 "S1"; map_error 2 "S1"; map_info 3 "S3"].
Proof. by vm_compute. Qed.

(** C1, refuted as stated: with three pages of which the second fails, the
    Map-Step leaves two results, not three: the failed page has no entry in
    [map_summaries]. *)
Lemma map_step_drops_failed_chunk :
  map_summaries (demo_map [1%nat] demo_pages).1 = Some ["S1"; "S3"] ∧
  ¬ (∃ l, map_summaries (demo_map [1%nat] demo_pages).1 = Some l ∧
          length l = length demo_pages).
Proof.
  split; [by vm_compute|].
  intros (l & Hl & Hlen). vm_compute in Hl. injection Hl as <-. discriminate Hlen.
Qed.

Lemma map_step_keeps_successes_only_witness :
  NoDup demo_pages.*1 ∧
  (is_Some (summary fresh) ∨
   head_succeeds "map:" mock_build_prompt (mock_provider [1%nat])
     (length (calls fresh)) demo_pages) ∧
  ∃ k' new reqs,
    demo_map [1%nat] demo_pages = (k', Return tt) ∧
    log k' = log fresh ++ new ∧
    Forall3 record_agrees new demo_pages.*1
      (outcomes "map:" mock_build_prompt (mock_provider [1%nat])
         (length (calls fresh)) demo_pages.*2) ∧
    map_summaries k' =
      Some (successes (outcomes "map:" mock_build_prompt (mock_provider [1%nat])
                         (length (calls fresh)) demo_pages.*2)) ∧
    length (successes (outcomes "map:" mock_build_prompt (mock_provider [1%nat])
                         (length (calls fresh)) demo_pages.*2))
      + length (failures (outcomes "map:" mock_build_prompt (mock_provider [1%nat])
                            (length (calls fresh)) demo_pages.*2))
      = length demo_pages ∧
    record_page <$> new = Some <$> demo_pages.*1 ∧
    map_summaries k' = Some (info_summaries new) ∧
    length (info_summaries new) + length (filter is_error new) = length demo_pages ∧
    calls k' = calls fresh ++ reqs ∧
    reqs = concat (map_calls "map:" mock_build_prompt <$> demo_pages.*2) ∧
    info_summaries new =
      successes (responses (mock_provider [1%nat]) (length (calls fresh)) reqs).
Proof.
  assert (Hnd : NoDup demo_pages.*1) by (apply (bool_decide_unpack _); by vm_compute).
  assert (H : is_Some (summary fresh) ∨
              head_succeeds "map:" mock_build_prompt (mock_provider [1%nat])
                (length (calls fresh)) demo_pages).
  { right. exists "S1". reflexivity. }
  split; [exact Hnd|]. split; [exact H|].
  exact (map_step_keeps_successes_only "map:" mock_build_prompt
           (mock_provider [1%nat]) demo_pages fresh Hnd H).
Defined.

(** C2, refuted as stated: on a kernel without any summary the reduce stage
    does not fail, and it does call the provider, with the prompt built from
    the empty text. *)
Lemma reduce_of_no_summaries_calls_provider :
  (demo_reduce [] (kernel_with [])).2 = Return tt ∧
  calls (demo_reduce [] (kernel_with [])).1 = [reduce_request "reduce:"] ∧
  ¬ ((∃ e, (demo_reduce [] (kernel_with [])).2 = Raise e) ∧
     calls (demo_reduce [] (kernel_with [])).1 = calls (kernel_with [])).
Proof.
  split_and!; [by vm_compute|by vm_compute|].
  intros [_ H]. vm_compute in H. discriminate H.
Qed.

Lemma reduce_of_no_summaries_witness :
  map_summaries (kernel_with []) = Some [] ∧
  mock_build_prompt "reduce:" [("text", VStr ""); ("max_words", VInt REDUCE_MAX_WORDS)]
    = Return "reduce:" ∧
  ∃ k',
    demo_reduce [] (kernel_with []) = (k', Return tt) ∧
    text k' = Some "" ∧
    calls k' = calls (kernel_with []) ++ [reduce_request "reduce:"] ∧
    match mock_provider [] (length (calls (kernel_with []))) (reduce_request "reduce:") with
    | Return f =>
        final_summary k' = Some f ∧
        output k' = Some [("final_summary", VStr f); ("map_summaries", VList [])]
    | Raise e =>
        log k' = log (kernel_with []) ++ [reduce_error e] ∧
        output k' = output (kernel_with [])
    end.
Proof.
  split; [reflexivity|]. split; [reflexivity|].
  exact (reduce_of_no_summaries "reduce:" mock_build_prompt (mock_provider [])
           (kernel_with []) "reduce:" eq_refl eq_refl).
Defined.

(** C3, refuted as stated: for the summaries "A" and "B\n\nC" the text
    handed to the consolidation prompt is "A\nBC", not "A\nB\nC": the
    doubled newline is deleted, not turned into one newline. *)
Lemma reduce_input_deletes_double_newline :
  reduce_input ["A"; "B" +:+ nl +:+ nl +:+ "C"] ≠ "A" +:+ nl +:+ "B" +:+ nl +:+ "C" ∧
  prompt <$> calls (demo_reduce [] (kernel_with ["A"; "B" +:+ nl +:+ nl +:+ "C"])).1
    = ["reduce:A" +:+ nl +:+ "BC"].
Proof. split; [by vm_compute|by vm_compute]. Qed.

Lemma reduce_input_is_join_without_double_newlines_witness :
  map_summaries (kernel_with ["A"; "B" +:+ nl +:+ nl +:+ "C"])
    = Some ["A"; "B" +:+ nl +:+ nl +:+ "C"] ∧
  text (demo_reduce [] (kernel_with ["A"; "B" +:+ nl +:+ nl +:+ "C"])).1
    = Some ("A" +:+ nl +:+ "BC") ∧
  calls (demo_reduce [] (kernel_with ["A"; "B" +:+ nl +:+ nl +:+ "C"])).1
    = [reduce_request ("reduce:A" +:+ nl +:+ "BC")].
Proof.
  split; [reflexivity|].
  destruct (reduce_input_is_join_without_double_newlines "reduce:"
              mock_build_prompt (mock_provider [])
              (kernel_with ["A"; "B" +:+ nl +:+ nl +:+ "C"])
              ["A"; "B" +:+ nl +:+ nl +:+ "C"] ("reduce:A" +:+ nl +:+ "BC")
              eq_refl eq_refl) as (Htext & Hcalls & _).
  split; [exact Htext|exact Hcalls].
Defined.

(** C5, refuted as stated: the dict the scenario binds to [output] has the
    two entries "final_summary" and "map_summaries"; it is not the
    three-entry bundle, for it has no "failed_chunks". *)
Lemma successful_run_has_no_failed_chunks :
  length <$> output (demo_run [] demo_pages).1 = Some 2 ∧
  output (demo_run [] demo_pages).1 ≠
    Some [("final_summary", VStr "FINAL");
          ("map_summaries", VList ["S1"; "S2"; "S3"]);
          ("failed_chunks", VList [])].
Proof. split; [by vm_compute|by vm_compute]. Qed.

Lemma successful_run_output_witness :
  NoDup demo_pages.*1 ∧
  all_succeed "map:" mock_build_prompt (mock_provider [])
    (length (calls fresh)) demo_pages.*2 ["S1"; "S2"; "S3"] ∧
  consolidate "reduce:" mock_build_prompt (mock_provider [])
    (length (calls fresh) + length demo_pages)
    (reduce_input ["S1"; "S2"; "S3"]) = Return "FINAL" ∧
  ∃ k',
    demo_run [] demo_pages = (k', Return tt) ∧
    output k' = Some [("final_summary", VStr "FINAL");
                      ("map_summaries", VList ["S1"; "S2"; "S3"])] ∧
    length <$> output k' = Some 2 ∧
    map_summaries k' = Some ["S1"; "S2"; "S3"] ∧
    final_summary k' = Some "FINAL".
Proof.
  assert (Hnd : NoDup demo_pages.*1) by (apply (bool_decide_unpack _); by vm_compute).
  assert (Hall : all_succeed "map:" mock_build_prompt (mock_provider [])
                   (length (calls fresh)) demo_pages.*2 ["S1"; "S2"; "S3"])
    by (simpl; auto).
  split; [exact Hnd|]. split; [exact Hall|]. split; [reflexivity|].
  exact (successful_run_output "map:" "reduce:" mock_build_prompt
           (mock_provider []) demo_pages ["S1"; "S2"; "S3"] "FINAL" fresh
           Hnd Hall eq_refl).
Defined.

(** C6, refuted as stated: the consolidation call (the fourth call of the
    run) raises, and yet the run completes: no exception reaches the
    caller. *)
Lemma reduce_failure_does_not_propagate :
  consolidate "reduce:" mock_build_prompt (mock_provider [3%nat]) 3
    (reduce_input ["S1"; "S2"; "S3"]) = Raise (Exn "RateLimitError" "slow down") ∧
  (demo_run [3%nat] demo_pages).2 = Return tt ∧
  ¬ (∃ e, (demo_run [3%nat] demo_pages).2 = Raise e).
Proof.
  split_and!; [by vm_compute|by vm_compute|].
  intros [e H]. vm_compute in H. discriminate H.
Qed.

Lemma reduce_failure_is_logged_witness :
  map_summaries (kernel_with ["S1"; "S2"]) = Some ["S1"; "S2"] ∧
  consolidate "reduce:" mock_build_prompt (mock_provider [0%nat])
    (length (calls (kernel_with ["S1"; "S2"]))) (reduce_input ["S1"; "S2"])
    = Raise (Exn "RateLimitError" "slow down") ∧
  ∃ k',
    demo_reduce [0%nat] (kernel_with ["S1"; "S2"]) = (k', Return tt) ∧
    log k' = log (kernel_with ["S1"; "S2"])
               ++ [reduce_error (Exn "RateLimitError" "slow down")] ∧
    output k' = output (kernel_with ["S1"; "S2"]) ∧
    final_summary k' = final_summary (kernel_with ["S1"; "S2"]) ∧
    map_summaries k' = Some ["S1"; "S2"].
Proof.
  split; [reflexivity|]. split; [reflexivity|].
  exact (reduce_failure_is_logged "reduce:" mock_build_prompt
           (mock_provider [0%nat]) (kernel_with ["S1"; "S2"]) ["S1"; "S2"]
           (Exn "RateLimitError" "slow down") eq_refl eq_refl).
Defined.

Lemma reduce_replay_is_deterministic_witness :
  (∀ n m r, mock_provider [] n r = mock_provider [] m r) ∧
  map_summaries (kernel_with ["S1"; "S2"]) = Some ["S1"; "S2"] ∧
  map_summaries (demo_map [] [(1%Z, "p1"); (2%Z, "p2")]).1 = Some ["S1"; "S2"] ∧
  output (demo_reduce [] (demo_reduce [] (kernel_with ["S1"; "S2"])).1).1
    = output (demo_reduce [] (kernel_with ["S1"; "S2"])).1 ∧
  output (demo_reduce [] (demo_map [] [(1%Z, "p1"); (2%Z, "p2")]).1).1
    = output (demo_reduce [] (kernel_with ["S1"; "S2"])).1.
Proof.
  assert (Hdet : ∀ n m r, mock_provider [] n r = mock_provider [] m r)
    by (intros n m r; reflexivity).
  split; [exact Hdet|]. split; [reflexivity|]. split; [reflexivity|].
  destruct (reduce_replay_is_deterministic "reduce:" mock_build_prompt
              (mock_provider []) (kernel_with ["S1"; "S2"])
              (demo_map [] [(1%Z, "p1"); (2%Z, "p2")]).1 ["S1"; "S2"]
              Hdet eq_refl eq_refl)
    as (Hbundle & Ha & Hb & Ha2 & _).
  split; [exact Ha2|].
  unfold demo_reduce. rewrite Ha, Hb, Hbundle. reflexivity.
Defined.

Lemma map_handler_reads_summary_witness :
  (∃ k',
      demo_map [0%nat] demo_pages = (k', Raise (NameError "summary")) ∧
      map_summaries k' = Some [] ∧
      log k' = [] ∧
      length (calls k') = 1) ∧
  (∃ k',
      for_each [1%Z; 2%Z; 3%Z]
        (map_iteration "map:" mock_build_prompt (mock_provider [1%nat]) demo_pages)
        (kernel_with []) =
      for_each [3%Z]
        (map_iteration "map:" mock_build_prompt (mock_provider [1%nat]) demo_pages) k' ∧
      log k' = [map_info 1 "S1"; map_error 2 "S1"]).
Proof.
  split.
  - destruct (map_handler_reads_summary "map:" mock_build_prompt
                (mock_provider [0%nat])) as [Hfirst _].
    destruct (Hfirst 1%Z "p1" [(2%Z, "p2"); (3%Z, "p3")] fresh
                (Exn "RateLimitError" "slow down") eq_refl eq_refl)
      as (k' & Hrun & Hsum & Hlog & Hcalls).
    exists k'. split; [exact Hrun|]. split; [exact Hsum|]. split; [exact Hlog|].
    rewrite Hcalls. reflexivity.
  - destruct (map_handler_reads_summary "map:" mock_build_prompt
                (mock_provider [1%nat])) as [_ Hlater].
    destruct (Hlater demo_pages 1%Z 2%Z "p1" "p2" [3%Z] (kernel_with []) []
                "S1" (Exn "RateLimitError" "slow down")
                eq_refl eq_refl eq_refl eq_refl eq_refl)
      as (k' & Hrun & Hlog & _).
    exists k'. split; [exact Hrun|exact Hlog].
Defined.

(** * Properties of the template binder *)

Lemma bind_from_missing bindings name template :
  ∀ hole,
    name ∈ Template.placeholders_from hole template ->
    bindings !! name = None ->
    ∃ n, bindings !! n = None ∧
         Template.bind_from bindings hole template = Raise (Template.TemplateError n).
Proof.
  induction template as [|c rest IH]; intros hole Hin Hnone; simpl in *.
  - by apply elem_of_nil in Hin.
  - destruct hole as [h|].
    + destruct (Ascii.eqb c "}").
      * destruct (bindings !! h) as [v|] eqn:Hh; [|by exists h].
        apply elem_of_cons in Hin as [->|Hin]; [congruence|].
        destruct (IH None Hin Hnone) as (n & Hn & ->). by exists n.
      * by apply IH.
    + destruct (Ascii.eqb c "{"); [by apply IH|].
      destruct (IH None Hin Hnone) as (n & Hn & ->). by exists n.
Qed.

Lemma bind_from_bound bindings template :
  ∀ hole,
    (∀ n, n ∈ Template.placeholders_from hole template -> is_Some (bindings !! n)) ->
    ∃ s, Template.bind_from bindings hole template = Return s.
Proof.
  induction template as [|c rest IH]; intros hole Hall; simpl in *.
  - destruct hole; eauto.
  - destruct hole as [h|].
    + destruct (Ascii.eqb c "}"); [|by apply IH].
      destruct (Hall h) as [v ->]; [by left|].
      destruct (IH None) as [s ->]; [|by eexists].
      intros n Hn. apply Hall. by right.
    + destruct (Ascii.eqb c "{"); [by apply IH|].
      destruct (IH None Hall) as [s ->]. by eexists.
Qed.

Lemma bind_from_agree b1 b2 template :
  ∀ hole,
    (∀ n, n ∈ Template.placeholders_from hole template -> b1 !! n = b2 !! n) ->
    Template.bind_from b1 hole template = Template.bind_from b2 hole template.
Proof.
  induction template as [|c rest IH]; intros hole Hall; simpl in *; [done|].
  destruct hole as [h|].
  - destruct (Ascii.eqb c "}"); [|by apply IH].
    rewrite <- (Hall h) by (by left).
    destruct (b1 !! h); [|done]. f_equal. apply IH. intros n Hn. apply Hall. by right.
  - destruct (Ascii.eqb c "{"); [by apply IH|]. f_equal. by apply IH.
Qed.

(** C7: binding is strict on missing placeholders and lax on extra
    bindings.  A template that references a placeholder without a binding
    fails with [TemplateError] (naming an unbound placeholder); a template
    all of whose placeholders are bound yields a text; a binding for a name
    the template never references changes nothing.  [bind "Hello {name}" {}]
    fails with [TemplateError], and with the bindings
    [name := "Ada"] and [extra := "ignored"] it yields "Hello Ada". *)
Theorem bind_strict_on_missing_lax_on_extra (template : string)
    (bindings : gmap string string) :
  ((∃ name, name ∈ Template.placeholders template ∧ bindings !! name = None) ->
   ∃ n, bindings !! n = None ∧
        Template.bind template bindings = Raise (Template.TemplateError n)) ∧
  ((∀ name, name ∈ Template.placeholders template -> is_Some (bindings !! name)) ->
   ∃ s, Template.bind template bindings = Return s) ∧
  (∀ extra v,
      extra ∉ Template.placeholders template ->
      Template.bind template (<[extra:=v]> bindings) = Template.bind template bindings) ∧
  Template.bind "Hello {name}" ∅ = Raise (Template.TemplateError "name") ∧
  Template.bind "Hello {name}" (<["name":="Ada"]> (<["extra":="ignored"]> ∅))
    = Return "Hello Ada".
Proof.
  split_and!.
  - intros (name & Hin & Hnone). by eapply bind_from_missing.
  - apply bind_from_bound.
  - intros extra v Hextra. apply bind_from_agree. intros n Hn.
    apply lookup_insert_ne. by intros ->.
  - reflexivity.
  - reflexivity.
Qed.

Lemma bind_strict_on_missing_lax_on_extra_witness :
  (∃ name, name ∈ Template.placeholders "Hello {name}" ∧
           (∅ : gmap string string) !! name = None) ∧
  ∃ n, (∅ : gmap string string) !! n = None ∧
       Template.bind "Hello {name}" ∅ = Raise (Template.TemplateError n).
Proof.
  assert (H : ∃ name, name ∈ Template.placeholders "Hello {name}" ∧
                      (∅ : gmap string string) !! name = None).
  { exists "name". split; [by left|reflexivity]. }
  split; [exact H|].
  destruct (bind_strict_on_missing_lax_on_extra "Hello {name}" ∅) as [Hmissing _].
  exact (Hmissing H).
Defined.

(** * Further properties of the join cell *)

Lemma join_cons_cons sep x y l :
  join sep (x :: y :: l) = x +:+ sep +:+ join sep (y :: l).
Proof. reflexivity. Qed.

Lemma append_assoc_string (a b c : string) : (a +:+ b) +:+ c = a +:+ b +:+ c.
Proof.
  induction a as [|x a IH]; [done|].
  change (String x ((a +:+ b) +:+ c) = String x (a +:+ b +:+ c)). by f_equal.
Qed.

Lemma contains_nl_cons c s :
  contains nl (String c s) = false ->
  Ascii.eqb "010" c = false ∧ contains nl s = false.
Proof.
  rewrite contains_cons, startswith_nl. by intros [? ?]%orb_false_iff.
Qed.

Lemma contains_nl_nlnl s :
  contains nl s = false -> contains (nl +:+ nl) s = false.
Proof.
  induction s as [|c s IH]; [done|].
  intros [Hc Hs]%contains_nl_cons.
  by rewrite contains_cons, startswith_nlnl, Hc, IH.
Qed.

Lemma contains_nlnl_app_clean a y :
  contains nl a = false ->
  contains (nl +:+ nl) (a +:+ y) = contains (nl +:+ nl) y.
Proof.
  induction a as [|c a IH]; [done|].
  intros [Hc Hs]%contains_nl_cons.
  change (String c a +:+ y) with (String c (a +:+ y)).
  by rewrite contains_cons, startswith_nlnl, Hc, IH.
Qed.

Lemma contains_nlnl_nl_cons s :
  contains (nl +:+ nl) (nl +:+ s) = startswith nl s || contains (nl +:+ nl) s.
Proof.
  change (nl +:+ s) with (String "010" s).
  by rewrite contains_cons, startswith_nlnl.
Qed.

Lemma join_clean l :
  Forall (λ s, s ≠ "" ∧ contains nl s = false) l ->
  contains (nl +:+ nl) (join nl l) = false ∧ startswith nl (join nl l) = false.
Proof.
  induction l as [|x l IH]; [done|].
  intros [[Hne Hx] Hl]%Forall_cons. specialize (IH Hl).
  assert (Hstart : ∀ y, startswith nl (x +:+ y) = false).
  { intros y. destruct x as [|c x]; [done|].
    apply contains_nl_cons in Hx as [Hc _].
    change (String c x +:+ y) with (String c (x +:+ y)).
    by rewrite startswith_nl. }
  destruct l as [|y l].
  - split; [by apply contains_nl_nlnl|].
    change (join nl [x]) with x. destruct x as [|c x]; [done|].
    apply contains_nl_cons in Hx as [Hc _]. by rewrite startswith_nl.
  - rewrite join_cons_cons. destruct IH as [IH1 IH2]. split; [|apply Hstart].
    by rewrite (contains_nlnl_app_clean x _ Hx), contains_nlnl_nl_cons, IH1, IH2.
Qed.

(** X9: when no summary is empty and none holds a newline, the clean-up
    changes nothing: the text handed to the Reduce-Step is the summaries
    joined by one newline each, one line per summary. *)
Theorem reduce_input_of_clean_summaries (l : list string) :
  Forall (λ s, s ≠ "" ∧ contains nl s = false) l ->
  reduce_input l = join nl l.
Proof.
  intros Hl. apply replace_no_occurrence. by apply join_clean.
Qed.

(** X10: the clean-up can delete the boundary between two summaries.  When
    a summary ends in a newline, or when a summary is empty, the newline of
    the join makes a doubled newline with it, which is deleted: the two
    neighbours are run together without any separator. *)
Theorem reduce_input_runs_summaries_together (a b : string) :
  contains nl a = false ->
  contains nl b = false ->
  reduce_input [a +:+ nl; b] = a +:+ b ∧
  reduce_input [a; ""; b] = a +:+ b.
Proof.
  intros Ha Hb.
  assert (Hpre : contains (nl +:+ nl) (a +:+ nl) = false)
    by (by rewrite (contains_nlnl_app_clean a nl Ha)).
  assert (Hpost : replace (nl +:+ nl) "" b = b)
    by (by apply replace_no_occurrence, contains_nl_nlnl).
  unfold reduce_input. split.
  - rewrite join_cons_cons. change (join nl [b]) with b.
    by rewrite append_assoc_string, (replace_leftmost a b Hpre), Hpost.
  - rewrite !join_cons_cons. change (join nl [b]) with b.
    change ("" +:+ nl +:+ b) with (nl +:+ b).
    by rewrite (replace_leftmost a b Hpre), Hpost.
Qed.

(** X11: cleaning a cleaned text changes nothing. *)
Theorem replace_double_newlines_idempotent (s : string) :
  replace (nl +:+ nl) "" (replace (nl +:+ nl) "" s) = replace (nl +:+ nl) "" s.
Proof. apply replace_no_occurrence, replace_leaves_no_double_newline. Qed.

(** X12: of a run of [n] newlines the clean-up keeps one when [n] is odd and
    none when [n] is even, whatever the length of the run. *)
Theorem newline_run_keeps_parity (n : nat) (s : string) :
  startswith nl s = false ->
  replace (nl +:+ nl) "" (newlines n +:+ s) =
    newlines (n mod 2) +:+ replace (nl +:+ nl) "" s.
Proof.
  intros Hs.
  enough (H : ∀ m,
             replace (nl +:+ nl) "" (newlines m +:+ s) =
               newlines (m mod 2) +:+ replace (nl +:+ nl) "" s ∧
             replace (nl +:+ nl) "" (newlines (S m) +:+ s) =
               newlines (S m mod 2) +:+ replace (nl +:+ nl) "" s)
    by apply H.
  induction m as [|m [IH0 IH1]].
  - split; [done|].
    change (newlines 1 +:+ s) with (String "010" s).
    unfold replace. rewrite replace_from_head, startswith_nlnl, Hs.
    by rewrite andb_false_r.
  - split; [exact IH1|].
    change (newlines (S (S m)) +:+ s) with ("" +:+ nl +:+ nl +:+ (newlines m +:+ s)).
    rewrite (replace_leftmost "" _ eq_refl), IH0.
    replace (S (S m) mod 2) with (m mod 2); [done|].
    replace (S (S m)) with (m + 1 * 2) by lia. by rewrite Nat.Div0.mod_add.
Qed.

(** * The notebook "Creating Content from Webpage" *)

Section WebProperties.

Variable strip : string -> string.
Variable slice_to : nat -> string -> string.
Variable extract_text : string -> list string -> result string.
Variable build_summary_prompt : string -> Z -> result string.
Variable build_style_prompt : string -> string -> result string.
Variable build_post_prompt : string -> Z -> result string.
Variable BASIC_SUMMARY_OUTLINE : string.
Variable get_chat_response : nat -> chat_call -> result string.

Local Abbreviation workflow' :=
  (workflow strip slice_to extract_text build_summary_prompt build_style_prompt
     build_post_prompt BASIC_SUMMARY_OUTLINE get_chat_response).

Ltac web_unfold :=
  unfold workflow, cell_extract, cell_summary, cell_outline, cell_style,
    cell_role, cell_post, mbind, web_mbind, web_bind, mret, web_mret, web_ret,
    web_lift, web_load, web_chat, show, store_w_text, store_w_summary,
    store_w_tpl, store_w_styled_summary, store_w_system_message, store_w_post
    in *.

Ltac web_simpl :=
  cbn [w_text w_summary w_tpl w_styled_summary w_system_message w_post
       w_calls w_shown fst snd].

(** X13: the three steps of the workflow feed one another.  When the
    extraction, the three prompt builders and the three provider calls
    succeed, the notebook makes exactly three calls, in this order: the
    summary of the whole extracted text (of which only the slice [[:1200]]
    is displayed), the styling of that summary with the stripped outline,
    and the post written from the styled summary, the only call with a
    system message and a model of its own; [post] is the third answer.
    [strip] and [slice_to] are any two functions: the statement does not
    depend on how Python strips and slices. *)
Theorem workflow_chain (k : web_kernel) (t p1 s p2 st p3 post : string) :
  extract_text URL TAGS = Return t ->
  build_summary_prompt t 150%Z = Return p1 ->
  get_chat_response (length (w_calls k)) (ChatCall p1 None (2 # 10)%Q None)
    = Return s ->
  build_style_prompt s (strip BASIC_SUMMARY_OUTLINE) = Return p2 ->
  get_chat_response (S (length (w_calls k))) (ChatCall p2 None 0%Q None)
    = Return st ->
  build_post_prompt st 150%Z = Return p3 ->
  get_chat_response (S (S (length (w_calls k))))
    (ChatCall p3 (Some SYSTEM_MESSAGE) (5 # 10)%Q (Some "gpt-4-1106-preview"))
    = Return post ->
  workflow' k =
    (WebKernel (Some t) (Some s) (Some (strip BASIC_SUMMARY_OUTLINE)) (Some st)
       (Some SYSTEM_MESSAGE) (Some post)
       (w_calls k ++
          [ChatCall p1 None (2 # 10)%Q None;
           ChatCall p2 None 0%Q None;
           ChatCall p3 (Some SYSTEM_MESSAGE) (5 # 10)%Q (Some "gpt-4-1106-preview")])
       (w_shown k ++
          [Displayed (slice_to 1200 t); Displayed s;
           Printed (strip BASIC_SUMMARY_OUTLINE); Displayed st;
           Displayed SYSTEM_MESSAGE; Displayed post]),
     Return tt).
Proof.
  intros Ht Hp1 Hs Hp2 Hst Hp3 Hpost. web_unfold.
  rewrite Ht. web_simpl. rewrite Hp1, Hs. web_simpl. rewrite Hp2.
  replace (length (w_calls k ++ [ChatCall p1 None (2 # 10)%Q None]))
    with (S (length (w_calls k))) by (rewrite length_app; cbn [length]; lia).
  rewrite Hst. web_simpl. rewrite Hp3.
  replace (length ((w_calls k ++ [ChatCall p1 None (2 # 10)%Q None])
                     ++ [ChatCall p2 None 0%Q None]))
    with (S (S (length (w_calls k))))
    by (rewrite !length_app; cbn [length]; lia).
  rewrite Hpost. web_simpl. by rewrite <- !app_assoc.
Qed.

(** X14: the workflow fails fast.  It has no handler: when an exception
    reaches the caller, it is the one a collaborator raised (the extractor,
    a prompt builder or the provider), never a [NameError] of the notebook's
    own, and the run stopped at that statement.  The kernel is the one that
    statement found: the variables of the cells before it are bound, the
    outputs of those cells are shown and their calls made, a failed call is
    recorded as made, and the rest of the failing cell and the cells after
    it have bound nothing, shown nothing and called nothing. *)
Theorem workflow_fails_fast (k : web_kernel) (e : exn) :
  (workflow' k).2 = Raise e ->
  (extract_text URL TAGS = Raise e ∧ workflow' k = (k, Raise e)) ∨
  (∃ t,
     extract_text URL TAGS = Return t ∧
     build_summary_prompt t 150%Z = Raise e ∧
     workflow' k =
       (WebKernel (Some t) (w_summary k) (w_tpl k) (w_styled_summary k)
          (w_system_message k) (w_post k) (w_calls k)
          (w_shown k ++ [Displayed (slice_to 1200 t)]), Raise e)) ∨
  (∃ t p1,
     extract_text URL TAGS = Return t ∧
     build_summary_prompt t 150%Z = Return p1 ∧
     get_chat_response (length (w_calls k)) (ChatCall p1 None (2 # 10)%Q None)
       = Raise e ∧
     workflow' k =
       (WebKernel (Some t) (w_summary k) (w_tpl k) (w_styled_summary k)
          (w_system_message k) (w_post k)
          (w_calls k ++ [ChatCall p1 None (2 # 10)%Q None])
          (w_shown k ++ [Displayed (slice_to 1200 t)]), Raise e)) ∨
  (∃ t p1 s,
     extract_text URL TAGS = Return t ∧
     build_summary_prompt t 150%Z = Return p1 ∧
     get_chat_response (length (w_calls k)) (ChatCall p1 None (2 # 10)%Q None)
       = Return s ∧
     build_style_prompt s (strip BASIC_SUMMARY_OUTLINE) = Raise e ∧
     workflow' k =
       (WebKernel (Some t) (Some s) (Some (strip BASIC_SUMMARY_OUTLINE))
          (w_styled_summary k) (w_system_message k) (w_post k)
          (w_calls k ++ [ChatCall p1 None (2 # 10)%Q None])
          (w_shown k ++
             [Displayed (slice_to 1200 t); Displayed s;
              Printed (strip BASIC_SUMMARY_OUTLINE)]), Raise e)) ∨
  (∃ t p1 s p2,
     extract_text URL TAGS = Return t ∧
     build_summary_prompt t 150%Z = Return p1 ∧
     get_chat_response (length (w_calls k)) (ChatCall p1 None (2 # 10)%Q None)
       = Return s ∧
     build_style_prompt s (strip BASIC_SUMMARY_OUTLINE) = Return p2 ∧
     get_chat_response (S (length (w_calls k))) (ChatCall p2 None 0%Q None)
       = Raise e ∧
     workflow' k =
       (WebKernel (Some t) (Some s) (Some (strip BASIC_SUMMARY_OUTLINE))
          (w_styled_summary k) (w_system_message k) (w_post k)
          (w_calls k ++
             [ChatCall p1 None (2 # 10)%Q None; ChatCall p2 None 0%Q None])
          (w_shown k ++
             [Displayed (slice_to 1200 t); Displayed s;
              Printed (strip BASIC_SUMMARY_OUTLINE)]), Raise e)) ∨
  (∃ t p1 s p2 st,
     extract_text URL TAGS = Return t ∧
     build_summary_prompt t 150%Z = Return p1 ∧
     get_chat_response (length (w_calls k)) (ChatCall p1 None (2 # 10)%Q None)
       = Return s ∧
     build_style_prompt s (strip BASIC_SUMMARY_OUTLINE) = Return p2 ∧
     get_chat_response (S (length (w_calls k))) (ChatCall p2 None 0%Q None)
       = Return st ∧
     build_post_prompt st 150%Z = Raise e ∧
     workflow' k =
       (WebKernel (Some t) (Some s) (Some (strip BASIC_SUMMARY_OUTLINE))
          (Some st) (Some SYSTEM_MESSAGE) (w_post k)
          (w_calls k ++
             [ChatCall p1 None (2 # 10)%Q None; ChatCall p2 None 0%Q None])
          (w_shown k ++
             [Displayed (slice_to 1200 t); Displayed s;
              Printed (strip BASIC_SUMMARY_OUTLINE); Displayed st;
              Displayed SYSTEM_MESSAGE]), Raise e)) ∨
  (∃ t p1 s p2 st p3,
     extract_text URL TAGS = Return t ∧
     build_summary_prompt t 150%Z = Return p1 ∧
     get_chat_response (length (w_calls k)) (ChatCall p1 None (2 # 10)%Q None)
       = Return s ∧
     build_style_prompt s (strip BASIC_SUMMARY_OUTLINE) = Return p2 ∧
     get_chat_response (S (length (w_calls k))) (ChatCall p2 None 0%Q None)
       = Return st ∧
     build_post_prompt st 150%Z = Return p3 ∧
     get_chat_response (S (S (length (w_calls k))))
       (ChatCall p3 (Some SYSTEM_MESSAGE) (5 # 10)%Q (Some "gpt-4-1106-preview"))
       = Raise e ∧
     workflow' k =
       (WebKernel (Some t) (Some s) (Some (strip BASIC_SUMMARY_OUTLINE))
          (Some st) (Some SYSTEM_MESSAGE) (w_post k)
          (w_calls k ++
             [ChatCall p1 None (2 # 10)%Q None; ChatCall p2 None 0%Q None;
              ChatCall p3 (Some SYSTEM_MESSAGE) (5 # 10)%Q
                (Some "gpt-4-1106-preview")])
          (w_shown k ++
             [Displayed (slice_to 1200 t); Displayed s;
              Printed (strip BASIC_SUMMARY_OUTLINE); Displayed st;
              Displayed SYSTEM_MESSAGE]), Raise e)).
Proof.
  web_unfold.
  destruct (extract_text URL TAGS) as [t|e0] eqn:Ht; web_simpl;
    [|intros [= ->]; by left].
  destruct (build_summary_prompt t 150%Z) as [p1|e0] eqn:Hp1; web_simpl;
    [|intros [= ->]; right; left; by exists t].
  destruct (get_chat_response _ (ChatCall p1 _ _ _)) as [s|e0] eqn:Hs; web_simpl;
    [|intros [= ->]; do 2 right; left; by exists t, p1].
  destruct (build_style_prompt s _) as [p2|e0] eqn:Hp2; web_simpl;
    [|intros [= ->]; do 3 right; left; exists t, p1, s; by rewrite <- !app_assoc].
  replace (length (w_calls k ++ [ChatCall p1 None (2 # 10)%Q None]))
    with (S (length (w_calls k))) by (rewrite length_app; cbn [length]; lia).
  destruct (get_chat_response _ (ChatCall p2 _ _ _)) as [st|e0] eqn:Hst; web_simpl;
    [|intros [= ->]; do 4 right; left; exists t, p1, s, p2;
      by rewrite <- !app_assoc].
  destruct (build_post_prompt st 150%Z) as [p3|e0] eqn:Hp3; web_simpl;
    [|intros [= ->]; do 5 right; left; exists t, p1, s, p2, st;
      by rewrite <- !app_assoc].
  replace (length ((w_calls k ++ [ChatCall p1 None (2 # 10)%Q None])
                     ++ [ChatCall p2 None 0%Q None]))
    with (S (S (length (w_calls k))))
    by (rewrite !length_app; cbn [length]; lia).
  destruct (get_chat_response _ (ChatCall p3 _ _ _)) as [post|e0] eqn:Hpost; web_simpl;
    [done|intros [= ->]; do 6 right; exists t, p1, s, p2, st, p3;
      by rewrite <- !app_assoc].
Qed.

End WebProperties.

(** * Concrete runs of the further properties *)

Lemma reduce_input_of_clean_summaries_witness :
  Forall (λ s : string, s ≠ "" ∧ contains nl s = false) ["S1"; "S2"] ∧
  reduce_input ["S1"; "S2"] = "S1" +:+ nl +:+ "S2".
Proof.
  assert (H : Forall (λ s : string, s ≠ "" ∧ contains nl s = false) ["S1"; "S2"])
    by (repeat constructor; done).
  split; [exact H|].
  exact (reduce_input_of_clean_summaries ["S1"; "S2"] H).
Defined.

Lemma reduce_input_runs_summaries_together_witness :
  contains nl "A" = false ∧ contains nl "B" = false ∧
  reduce_input ["A" +:+ nl; "B"] = "AB" ∧
  reduce_input ["A"; ""; "B"] = "AB".
Proof.
  split; [reflexivity|]. split; [reflexivity|].
  exact (reduce_input_runs_summaries_together "A" "B" eq_refl eq_refl).
Defined.

Lemma newline_run_keeps_parity_witness :
  startswith nl "b" = false ∧
  replace (nl +:+ nl) "" (newlines 5 +:+ "b") = nl +:+ "b".
Proof.
  split; [reflexivity|].
  exact (newline_run_keeps_parity 5 "b" eq_refl).
Defined.

Lemma workflow_chain_witness :
  mock_extract URL TAGS = Return "page text" ∧
  demo_workflow [] =
    (WebKernel (Some "page text") (Some "[sum:page text]") (Some "outline")
       (Some "[style:[sum:page text]]") (Some SYSTEM_MESSAGE)
       (Some "[post:[style:[sum:page text]]]")
       [ChatCall "sum:page text" None (2 # 10)%Q None;
        ChatCall "style:[sum:page text]" None 0%Q None;
        ChatCall "post:[style:[sum:page text]]" (Some SYSTEM_MESSAGE) (5 # 10)%Q
          (Some "gpt-4-1106-preview")]
       [Displayed "page text"; Displayed "[sum:page text]"; Printed "outline";
        Displayed "[style:[sum:page text]]"; Displayed SYSTEM_MESSAGE;
        Displayed "[post:[style:[sum:page text]]]"],
     Return tt).
Proof.
  split; [reflexivity|].
  exact (workflow_chain ascii_strip ascii_slice_to mock_extract
           (later_summary_prompt mock_build_prompt "sum:")
           (later_style_prompt mock_build_prompt "style:")
           (later_post_prompt mock_build_prompt "post:")
           ("  outline" +:+ nl) (mock_web_provider []) web_fresh
           "page text" "sum:page text" "[sum:page text]"
           "style:[sum:page text]" "[style:[sum:page text]]"
           "post:[style:[sum:page text]]" "[post:[style:[sum:page text]]]"
           eq_refl eq_refl eq_refl eq_refl eq_refl eq_refl eq_refl).
Defined.

(** The second call fails: the run stops in the styling cell, with
    [styled_summary], [system_message] and [post] not bound, the outline
    the last thing shown and the failed call the last one made. *)
Lemma workflow_fails_fast_witness :
  (demo_workflow [1%nat]).2 = Raise (Exn "RateLimitError" "slow down") ∧
  demo_workflow [1%nat] =
    (WebKernel (Some "page text") (Some "[sum:page text]") (Some "outline")
       None None None
       [ChatCall "sum:page text" None (2 # 10)%Q None;
        ChatCall "style:[sum:page text]" None 0%Q None]
       [Displayed "page text"; Displayed "[sum:page text]"; Printed "outline"],
     Raise (Exn "RateLimitError" "slow down")).
Proof.
  assert (H : (demo_workflow [1%nat]).2 = Raise (Exn "RateLimitError" "slow down"))
    by reflexivity.
  split; [exact H|].
  destruct (workflow_fails_fast ascii_strip ascii_slice_to mock_extract
              (later_summary_prompt mock_build_prompt "sum:")
              (later_style_prompt mock_build_prompt "style:")
              (later_post_prompt mock_build_prompt "post:")
              ("  outline" +:+ nl) (mock_web_provider [1%nat]) web_fresh
              (Exn "RateLimitError" "slow down") H)
    as [[Hx _]|[(t & _ & Hx & _)|[(t & p1 & _ & _ & Hx & _)|
        [(t & p1 & s & _ & _ & _ & Hx & _)|
         [(t & p1 & s & p2 & Ht & Hp1 & Hs & Hp2 & _ & Hrun)|
          [(t & p1 & s & p2 & st & _ & _ & _ & _ & Hx & _)|
           (t & p1 & s & p2 & st & p3 & _ & _ & _ & _ & Hx & _)]]]]]];
    try discriminate Hx.
  injection Ht as <-. injection Hp1 as <-. injection Hs as <-.
  injection Hp2 as <-. exact Hrun.
Defined.

(** ** Runs with an interrupt *)

(** The first page is summarised, the second is interrupted: the interrupt
    leaves the Map-Step cell, the third page not tried. *)
Example demo_map_interrupted :
  demo_map_by_class (interrupted_provider [] 1) fresh =
    (Kernel (Some ["S1"]) (Some "S1") None None None
       [map_info 1 "S1"]
       [map_request "map:p1"; map_request "map:p2"] [],
     Raise (Exn "KeyboardInterrupt" "")).
Proof. reflexivity. Qed.

(** The first page fails with an instance of [Exception] and [summary] is
    not bound: [NameError], before the interrupt of the second call. *)
Example demo_map_name_error_first :
  demo_map_by_class (interrupted_provider [0%nat] 1) fresh =
    (Kernel (Some []) None None None None [] [map_request "map:p1"] [],
     Raise (NameError "summary")).
Proof. reflexivity. Qed.

Lemma map_step_ends_by_class_witness :
  NoDup demo_pages.*1 ∧
  ∃ k' r,
    demo_map_by_class (interrupted_provider [] 1) fresh = (k', r) ∧
    ((r = Return tt ∧
      Forall (λ o, ByClass.caught builtin_is_exception o = true)
        (outcomes "map:" mock_build_prompt (interrupted_provider [] 1)
           (length (calls fresh)) demo_pages.*2) ∧
      (is_Some (summary fresh) ∨
       ∀ e, head (outcomes "map:" mock_build_prompt (interrupted_provider [] 1)
                    (length (calls fresh)) demo_pages.*2) ≠ Some (Raise e))) ∨
     (r = Raise (NameError "summary") ∧
      summary fresh = None ∧
      ∃ e, head (outcomes "map:" mock_build_prompt (interrupted_provider [] 1)
                   (length (calls fresh)) demo_pages.*2) = Some (Raise e) ∧
           builtin_is_exception e = true) ∨
     (∃ e pre post,
        r = Raise e ∧ builtin_is_exception e = false ∧
        outcomes "map:" mock_build_prompt (interrupted_provider [] 1)
          (length (calls fresh)) demo_pages.*2 = pre ++ Raise e :: post ∧
        Forall (λ o, ByClass.caught builtin_is_exception o = true) pre ∧
        (is_Some (summary fresh) ∨ ∀ e', head pre ≠ Some (Raise e')))).
Proof.
  assert (Hnd : NoDup demo_pages.*1) by (apply (bool_decide_unpack _); by vm_compute).
  split; [exact Hnd|].
  exact (map_step_ends_by_class builtin_is_exception "map:" mock_build_prompt
           (interrupted_provider [] 1) demo_pages fresh Hnd).
Defined.

(** The Reduce-Step cell run before the join cell, and interrupted. *)
Example demo_reduce_cell_without_text :
  ByClass.cell_reduce builtin_is_exception "reduce:" mock_build_prompt
    (mock_provider []) fresh =
    (Kernel None None None None None [reduce_error (NameError "text")] [] [],
     Return tt).
Proof. reflexivity. Qed.

Example demo_reduce_stage_interrupted :
  ByClass.run_reduce builtin_is_exception "reduce:" mock_build_prompt
    (interrupted_provider [] 0) (kernel_with ["S1"; "S2"]) =
    (Kernel (Some ["S1"; "S2"]) None (Some ("S1" +:+ nl +:+ "S2")) None None []
       [reduce_request ("reduce:S1" +:+ nl +:+ "S2")] ["S1" +:+ nl +:+ "S2"],
     Raise (Exn "KeyboardInterrupt" "")).
Proof. reflexivity. Qed.

Lemma reduce_cell_ends_by_class_witness :
  builtin_is_exception (NameError "text") = true ∧
  ∃ k' r,
    ByClass.cell_reduce builtin_is_exception "reduce:" mock_build_prompt
      (interrupted_provider [] 0)
      (Kernel (Some ["S1"]) None (Some "S1") None None [] [] []) = (k', r) ∧
    r = Raise (Exn "KeyboardInterrupt" "") ∧
    log k' = [] ∧ final_summary k' = None ∧ output k' = None.
Proof.
  split; [reflexivity|].
  destruct (reduce_cell_ends_by_class builtin_is_exception "reduce:"
              mock_build_prompt (interrupted_provider [] 0)
              (Kernel (Some ["S1"]) None (Some "S1") None None [] [] [])
              eq_refl)
    as (k' & r & Hrun & Hcases).
  exists k', r. split; [exact Hrun|].
  destruct Hcases as [(Ht & _)|[(t & e & Ht & Hc & He & _)|
    [(t & e & Ht & Hc & _ & -> & Hlog & Hf & Ho)|
     [(t & f & l & Ht & Hc & _)|(t & f & Ht & Hc & _)]]]];
    try discriminate Ht; injection Ht as <-; try discriminate Hc;
    injection Hc as <-; [discriminate He|].
  by split_and!.
Defined.

(** ** Runs of the notebook from its first cell on *)

Example demo_notebook_completes :
  demo_notebook (mock_provider []) mock_extract_pages fresh =
    (Kernel (Some ["S1"; "S2"]) (Some "S2") (Some ("S1" +:+ nl +:+ "S2"))
       (Some "FINAL")
       (Some [("final_summary", VStr "FINAL");
              ("map_summaries", VList ["S1"; "S2"])])
       [map_info 1 "S1"; map_info 2 "S2"; reduce_info "FINAL"]
       [map_request "map:p1"; map_request "map:p2";
        reduce_request ("reduce:S1" +:+ nl +:+ "S2")]
       ["Successfully loaded text from 2 PDF pages."; "S1" +:+ nl +:+ "S2"],
     Return tt).
Proof. reflexivity. Qed.

Example demo_notebook_extractor_fails :
  demo_notebook (mock_provider []) failing_extract_pages fresh =
    (fresh, Raise (Exn "FileNotFoundError" PDF_URL)).
Proof. reflexivity. Qed.

Example demo_notebook_interrupted_in_reduce :
  (demo_notebook (interrupted_provider [] 2) mock_extract_pages fresh).2 =
    Raise (Exn "KeyboardInterrupt" "") ∧
  output (demo_notebook (interrupted_provider [] 2) mock_extract_pages fresh).1 =
    None.
Proof. split; reflexivity. Qed.

Lemma notebook_ends_by_class_witness :
  (∀ pages, mock_extract_pages PDF_URL START END = Return pages ->
            NoDup pages.*1) ∧
  ∃ k' r,
    demo_notebook (interrupted_provider [] 2) mock_extract_pages fresh = (k', r) ∧
    (r = Return tt ∨
     (∃ e, mock_extract_pages PDF_URL START END = Raise e ∧
           r = Raise e ∧ k' = fresh) ∨
     (r = Raise (NameError "summary") ∧ summary fresh = None ∧
      text k' = text fresh ∧ final_summary k' = final_summary fresh ∧
      output k' = output fresh ∧ log k' = log fresh) ∨
     (∃ e, r = Raise e ∧ builtin_is_exception e = false ∧
           final_summary k' = final_summary fresh ∧ output k' = output fresh ∧
           ((∃ n c, summarize "map:" mock_build_prompt
                      (interrupted_provider [] 2) n c = Raise e) ∨
            (∃ n t, consolidate "reduce:" mock_build_prompt
                      (interrupted_provider [] 2) n t = Raise e)))).
Proof.
  assert (Hdict : ∀ pages, mock_extract_pages PDF_URL START END = Return pages ->
                           NoDup pages.*1).
  { intros pages [= <-]. apply (bool_decide_unpack _). by vm_compute. }
  split; [exact Hdict|].
  exact (notebook_ends_by_class builtin_is_exception "map:" "reduce:"
           mock_build_prompt (interrupted_provider [] 2) mock_extract_pages
           fresh Hdict).
Defined.
